(** * HrBrain: the in-memory entity store and its request handlers

    A shallow embedding of [storage.ts] (class [MemStorage]) and of the
    handlers of [routes.ts] that create, update and list entities and that
    log users in and register them.

    - A JavaScript [Map] is an association list in insertion order
      ([Map.prototype.set] on a present key keeps the key's position).
    - A [Date] is its time value, milliseconds since the epoch in [Z], or
      the invalid date, whose time value is NaN. A date property stands
      for what [new Date(...)] makes of it where the code reads it: in a
      nullable one [None] is [null], read as the epoch, and a value that is
      no date (a string that is none, [undefined]) is the invalid date. In
      the other nullable properties [null] and [undefined] are both
      [None].
    - A JavaScript number carried around but never computed with (the
      sentiment and confidence scores) is a binary64 [float].
    - [new Date()] and [randomUUID()] read the outside world: the n-th
      reading of the clock and the n-th identifier drawn are given by two
      functions, and the world counts the readings and draws made so far.
    - Store methods are [async] but never suspend before they return, so
      each one is a state transformer on the world. *)

From Stdlib Require Import String List ZArith Lia Bool.
From Stdlib Require Import Sorting.Sorted Sorting.Permutation.
From Stdlib Require Import Floats.PrimFloat.
Import ListNotations.
Local Open Scope string_scope.
Local Open Scope Z_scope.

Set Implicit Arguments.

(** ** JavaScript values used by the store *)

(** A [Date]: one with a time value, or the invalid date that
    [new Date(NaN)], [new Date(undefined)] and [new Date] of a string that
    is no date return. *)
Inductive Date :=
| date (t : Z)
| Invalid_Date.

(** [new Date(d!)] for a nullable date: [new Date(null)] is the epoch. *)
Definition Date_of (d : option Date) : Date :=
  match d with
  | Some x => x
  | None => date 0
  end.

(** [d.getTime()]: a number, NaN ([None]) for the invalid date. *)
Definition getTime (d : Date) : option Z :=
  match d with
  | date t => Some t
  | Invalid_Date => None
  end.

(** [a - b] on numbers: NaN when either is. *)
Definition minus (a b : option Z) : option Z :=
  match a, b with
  | Some x, Some y => Some (x - y)
  | _, _ => None
  end.

(** [a === b] and [a >= b] on numbers: false when either is NaN. *)
Definition number_eq (a b : option Z) : bool :=
  match a, b with
  | Some x, Some y => Z.eqb x y
  | _, _ => false
  end.

Definition number_ge (a b : option Z) : bool :=
  match a, b with
  | Some x, Some y => Z.leb y x
  | _, _ => false
  end.

(** What [sort] makes of the number its comparator returns: NaN counts as
    [+0]. *)
Definition sort_order (v : option Z) : Z :=
  match v with
  | Some z => z
  | None => 0
  end.

(** [s || d] for an optional string: [undefined], [null] and the empty
    string are falsy. *)
Definition str_or (s : option string) (d : string) : string :=
  match s with
  | Some v => if String.eqb v "" then d else v
  | None => d
  end.

(** [s || null] for an optional string. *)
Definition str_or_null (s : option string) : option string :=
  match s with
  | Some v => if String.eqb v "" then None else Some v
  | None => None
  end.

(** [b ?? d] for an optional boolean. *)
Definition bool_nullish (b : option bool) (d : bool) : bool :=
  match b with
  | Some v => v
  | None => d
  end.

(** [n || d] for an optional integer: [undefined] and [0] are falsy. *)
Definition num_or (n : option Z) (d : Z) : Z :=
  match n with
  | Some v => if Z.eqb v 0 then d else v
  | None => d
  end.

(** [!s] for an optional string. *)
Definition falsy (s : option string) : bool :=
  match s with
  | Some v => String.eqb v ""
  | None => true
  end.

(** ** [Map<string, V>] *)

Module JsMap.
Section Ops.
Variable V : Type.

Definition t := list (string * V).

Definition empty : t := [].

Fixpoint get (k : string) (m : t) : option V :=
    match m with
    | [] => None
    | (k', v) :: m' => if String.eqb k k' then Some v else get k m'
    end.

Fixpoint set (k : string) (v : V) (m : t) : t :=
    match m with
    | [] => [(k, v)]
    | (k', v') :: m' =>
        if String.eqb k k' then (k, v) :: m' else (k', v') :: set k v m'
    end.

  (** [Array.from(m.values())] *)
Definition values (m : t) : list V := map snd m.

Definition keys (m : t) : list string := map fst m.
End Ops.
End JsMap.

Arguments JsMap.empty {V}.

(** [Array.prototype.find] *)
Fixpoint find_first {A} (p : A -> bool) (l : list A) : option A :=
  match l with
  | [] => None
  | x :: l' => if p x then Some x else find_first p l'
  end.

(** [Array.prototype.sort(cmp)]: the sort is stable, and for a comparator
    that is a difference of keys every stable sort returns the same array;
    it is written here as a stable insertion sort. [cmp a b <= 0] keeps [a]
    before [b]. For a comparator that is not consistent (one that returns
    NaN for some pairs and not for others) the language leaves the order to
    the implementation; the properties of order below are stated for
    consistent comparators only. *)
Section Sort.
Variable A : Type.
Variable cmp : A -> A -> Z.

Fixpoint insert_sorted (x : A) (l : list A) : list A :=
    match l with
    | [] => [x]
    | y :: l' => if cmp x y <=? 0 then x :: l else y :: insert_sorted x l'
    end.

Fixpoint sort (l : list A) : list A :=
    match l with
    | [] => []
    | x :: l' => insert_sorted x (sort l')
    end.
End Sort.

(** ** Entities ([@shared/schema])

    The entity types are imported from the shared schema; the records below
    take their fields from the objects the store builds and from the data
    model of the specification. A nullable or optional property is an
    [option]. A [Partial<T>] payload is the list of its own properties, in
    order; spreading it assigns them one by one, so that a later property
    wins over an earlier one of the same name. *)

Module InsertUser.
(** Modelled from the spec: the type [InsertUser] of the shared schema, the
    validated body of user creation; [role], [department] and [isActive]
    may be left out. *)
Record t := mk {
    username : string;
    password : string;
    email : string;
    phone : string;
    name : string;
    role : option string;
    department : option string;
    isActive : option bool
  }.
End InsertUser.

Module User.
(** Modelled from the spec: the type [User] of the shared schema, with the
    attributes of the data model's User row. *)
Record t := mk {
    id : string;
    username : string;
    password : string;
    email : string;
    phone : string;
    name : string;
    role : string;
    department : option string;
    isActive : bool;
    lastLogin : option Date;
    createdAt : option Date
  }.

Inductive Field :=
  | F_id (v : string)
  | F_username (v : string)
  | F_password (v : string)
  | F_email (v : string)
  | F_phone (v : string)
  | F_name (v : string)
  | F_role (v : string)
  | F_department (v : option string)
  | F_isActive (v : bool)
  | F_lastLogin (v : option Date)
  | F_createdAt (v : option Date).

Definition Partial := list Field.

Definition assign (f : Field) (u : t) : t :=
    {| id := match f with F_id v => v | _ => id u end;
       username := match f with F_username v => v | _ => username u end;
       password := match f with F_password v => v | _ => password u end;
       email := match f with F_email v => v | _ => email u end;
       phone := match f with F_phone v => v | _ => phone u end;
       name := match f with F_name v => v | _ => name u end;
       role := match f with F_role v => v | _ => role u end;
       department := match f with F_department v => v | _ => department u end;
       isActive := match f with F_isActive v => v | _ => isActive u end;
       lastLogin := match f with F_lastLogin v => v | _ => lastLogin u end;
       createdAt := match f with F_createdAt v => v | _ => createdAt u end |}.

  (** [{ ...u, ...updates }] *)
Definition spread (u : t) (updates : Partial) : t :=
    fold_left (fun acc f => assign f acc) updates u.

Definition sets_id (f : Field) : bool :=
    match f with F_id _ => true | _ => false end.

Definition sets_createdAt (f : Field) : bool :=
    match f with F_createdAt _ => true | _ => false end.
End User.

(** The object left by [const { password: _, ...userWithoutPassword } = user]. *)
Module UserWithoutPassword.
Record t := mk {
    id : string;
    username : string;
    email : string;
    phone : string;
    name : string;
    role : string;
    department : option string;
    isActive : bool;
    lastLogin : option Date;
    createdAt : option Date
  }.

Definition of_user (u : User.t) : t :=
    {| id := User.id u;
       username := User.username u;
       email := User.email u;
       phone := User.phone u;
       name := User.name u;
       role := User.role u;
       department := User.department u;
       isActive := User.isActive u;
       lastLogin := User.lastLogin u;
       createdAt := User.createdAt u |}.
End UserWithoutPassword.

Module InsertComplaint.
(** Modelled from the spec: the type [InsertComplaint] of the shared schema;
    all but [title], [description] and [submitterId] may be left out. *)
Record t := mk {
    title : string;
    description : string;
    submitterId : string;
    status : option string;
    priority : option string;
    category : option string;
    assignedTo : option string;
    isAnonymous : option bool
  }.
End InsertComplaint.

Module Complaint.
(** Modelled from the spec: the type [Complaint] of the shared schema, with
    the attributes of the data model's Complaint row. *)
Record t := mk {
    id : string;
    title : string;
    description : string;
    submitterId : string;
    status : string;
    priority : string;
    category : option string;
    assignedTo : option string;
    aiAnalysis : option string;
    aiRecommendations : option string;
    sentimentScore : option float;
    confidenceScore : option float;
    isAnonymous : bool;
    createdAt : option Date;
    updatedAt : option Date
  }.

Inductive Field :=
  | F_id (v : string)
  | F_title (v : string)
  | F_description (v : string)
  | F_submitterId (v : string)
  | F_status (v : string)
  | F_priority (v : string)
  | F_category (v : option string)
  | F_assignedTo (v : option string)
  | F_aiAnalysis (v : option string)
  | F_aiRecommendations (v : option string)
  | F_sentimentScore (v : option float)
  | F_confidenceScore (v : option float)
  | F_isAnonymous (v : bool)
  | F_createdAt (v : option Date)
  | F_updatedAt (v : option Date).

Definition Partial := list Field.

Definition assign (f : Field) (c : t) : t :=
    {| id := match f with F_id v => v | _ => id c end;
       title := match f with F_title v => v | _ => title c end;
       description := match f with F_description v => v | _ => description c end;
       submitterId := match f with F_submitterId v => v | _ => submitterId c end;
       status := match f with F_status v => v | _ => status c end;
       priority := match f with F_priority v => v | _ => priority c end;
       category := match f with F_category v => v | _ => category c end;
       assignedTo := match f with F_assignedTo v => v | _ => assignedTo c end;
       aiAnalysis := match f with F_aiAnalysis v => v | _ => aiAnalysis c end;
       aiRecommendations :=
         match f with F_aiRecommendations v => v | _ => aiRecommendations c end;
       sentimentScore :=
         match f with F_sentimentScore v => v | _ => sentimentScore c end;
       confidenceScore :=
         match f with F_confidenceScore v => v | _ => confidenceScore c end;
       isAnonymous := match f with F_isAnonymous v => v | _ => isAnonymous c end;
       createdAt := match f with F_createdAt v => v | _ => createdAt c end;
       updatedAt := match f with F_updatedAt v => v | _ => updatedAt c end |}.

  (** [{ ...c, ...updates }] *)
Definition spread (c : t) (updates : Partial) : t :=
    fold_left (fun acc f => assign f acc) updates c.

Definition sets_id (f : Field) : bool :=
    match f with F_id _ => true | _ => false end.

Definition sets_createdAt (f : Field) : bool :=
    match f with F_createdAt _ => true | _ => false end.

Definition sets_updatedAt (f : Field) : bool :=
    match f with F_updatedAt _ => true | _ => false end.

  (** Property names, to speak of "the field a payload names" and of "every
      other field". *)
Inductive Key :=
  | K_id | K_title | K_description | K_submitterId | K_status | K_priority
  | K_category | K_assignedTo | K_aiAnalysis | K_aiRecommendations
  | K_sentimentScore | K_confidenceScore | K_isAnonymous | K_createdAt
  | K_updatedAt.

Definition key_of (f : Field) : Key :=
    match f with
    | F_id _ => K_id
    | F_title _ => K_title
    | F_description _ => K_description
    | F_submitterId _ => K_submitterId
    | F_status _ => K_status
    | F_priority _ => K_priority
    | F_category _ => K_category
    | F_assignedTo _ => K_assignedTo
    | F_aiAnalysis _ => K_aiAnalysis
    | F_aiRecommendations _ => K_aiRecommendations
    | F_sentimentScore _ => K_sentimentScore
    | F_confidenceScore _ => K_confidenceScore
    | F_isAnonymous _ => K_isAnonymous
    | F_createdAt _ => K_createdAt
    | F_updatedAt _ => K_updatedAt
    end.

  (** [c] has, at the property [f] names, the value [f] carries. *)
Definition holds (f : Field) (c : t) : Prop :=
    match f with
    | F_id v => id c = v
    | F_title v => title c = v
    | F_description v => description c = v
    | F_submitterId v => submitterId c = v
    | F_status v => status c = v
    | F_priority v => priority c = v
    | F_category v => category c = v
    | F_assignedTo v => assignedTo c = v
    | F_aiAnalysis v => aiAnalysis c = v
    | F_aiRecommendations v => aiRecommendations c = v
    | F_sentimentScore v => sentimentScore c = v
    | F_confidenceScore v => confidenceScore c = v
    | F_isAnonymous v => isAnonymous c = v
    | F_createdAt v => createdAt c = v
    | F_updatedAt v => updatedAt c = v
    end.

  (** [c] and [c'] have the same value at property [k]. *)
Definition agree (k : Key) (c c' : t) : Prop :=
    match k with
    | K_id => id c = id c'
    | K_title => title c = title c'
    | K_description => description c = description c'
    | K_submitterId => submitterId c = submitterId c'
    | K_status => status c = status c'
    | K_priority => priority c = priority c'
    | K_category => category c = category c'
    | K_assignedTo => assignedTo c = assignedTo c'
    | K_aiAnalysis => aiAnalysis c = aiAnalysis c'
    | K_aiRecommendations => aiRecommendations c = aiRecommendations c'
    | K_sentimentScore => sentimentScore c = sentimentScore c'
    | K_confidenceScore => confidenceScore c = confidenceScore c'
    | K_isAnonymous => isAnonymous c = isAnonymous c'
    | K_createdAt => createdAt c = createdAt c'
    | K_updatedAt => updatedAt c = updatedAt c'
    end.
End Complaint.

Module InsertMeeting.
(** Modelled from the spec: the type [InsertMeeting] of the shared schema. *)
Record t := mk {
  title : string;
  description : option string;
  organizerId : string;
  attendeeIds : option (list string);
  scheduledDate : Date;
  duration : option Z;
  status : option string;
  meetingLink : option string;
  relatedComplaintId : option string
}.
End InsertMeeting.

Module Meeting.
(** Modelled from the spec: the type [Meeting] of the shared schema, with the
    attributes of the data model's Meeting row. *)
Record t := mk {
  id : string;
  title : string;
  description : option string;
  organizerId : string;
  attendeeIds : option (list string);
  scheduledDate : Date;
  duration : Z;
  status : string;
  meetingLink : option string;
  relatedComplaintId : option string;
  createdAt : option Date
}.

Inductive Field :=
| F_id (v : string)
| F_title (v : string)
| F_description (v : option string)
| F_organizerId (v : string)
| F_attendeeIds (v : option (list string))
| F_scheduledDate (v : Date)
| F_duration (v : Z)
| F_status (v : string)
| F_meetingLink (v : option string)
| F_relatedComplaintId (v : option string)
| F_createdAt (v : option Date).

Definition Partial := list Field.

Definition assign (f : Field) (m : t) : t :=
  {| id := match f with F_id v => v | _ => id m end;
     title := match f with F_title v => v | _ => title m end;
     description := match f with F_description v => v | _ => description m end;
     organizerId := match f with F_organizerId v => v | _ => organizerId m end;
     attendeeIds := match f with F_attendeeIds v => v | _ => attendeeIds m end;
     scheduledDate :=
       match f with F_scheduledDate v => v | _ => scheduledDate m end;
     duration := match f with F_duration v => v | _ => duration m end;
     status := match f with F_status v => v | _ => status m end;
     meetingLink := match f with F_meetingLink v => v | _ => meetingLink m end;
     relatedComplaintId :=
       match f with F_relatedComplaintId v => v | _ => relatedComplaintId m end;
     createdAt := match f with F_createdAt v => v | _ => createdAt m end |}.

(** [{ ...m, ...updates }] *)
Definition spread (m : t) (updates : Partial) : t :=
  fold_left (fun acc f => assign f acc) updates m.

Definition sets_id (f : Field) : bool :=
  match f with F_id _ => true | _ => false end.

Definition sets_createdAt (f : Field) : bool :=
  match f with F_createdAt _ => true | _ => false end.
End Meeting.

Module InsertScenario.
(** Modelled from the spec: the type [InsertScenario] of the shared schema. *)
Record t := mk {
  scenario : string
}.
End InsertScenario.

Module Scenario.
(** Modelled from the spec: the type [Scenario] of the shared schema, with the
    attributes of the data model's Scenario row. *)
Record t := mk {
  id : string;
  scenario : string;
  aiResponse : option string;
  recommendedActions : option string;
  riskLevel : option string;
  createdAt : option Date
}.

Inductive Field :=
| F_id (v : string)
| F_scenario (v : string)
| F_aiResponse (v : option string)
| F_recommendedActions (v : option string)
| F_riskLevel (v : option string)
| F_createdAt (v : option Date).

Definition Partial := list Field.

Definition assign (f : Field) (s : t) : t :=
  {| id := match f with F_id v => v | _ => id s end;
     scenario := match f with F_scenario v => v | _ => scenario s end;
     aiResponse := match f with F_aiResponse v => v | _ => aiResponse s end;
     recommendedActions :=
       match f with F_recommendedActions v => v | _ => recommendedActions s end;
     riskLevel := match f with F_riskLevel v => v | _ => riskLevel s end;
     createdAt := match f with F_createdAt v => v | _ => createdAt s end |}.

(** [{ ...s, ...updates }] *)
Definition spread (s : t) (updates : Partial) : t :=
  fold_left (fun acc f => assign f acc) updates s.

Definition sets_id (f : Field) : bool :=
  match f with F_id _ => true | _ => false end.

Definition sets_createdAt (f : Field) : bool :=
  match f with F_createdAt _ => true | _ => false end.
End Scenario.

Module InsertNotification.
(** Modelled from the spec: the type [InsertNotification] of the shared
    schema. *)
Record t := mk {
  userId : string;
  message : string;
  relatedEntityId : option string;
  relatedEntityType : option string;
  isRead : option bool
}.
End InsertNotification.

Module Notification.
(** Modelled from the spec: the type [Notification] of the shared schema, with
    the attributes of the data model's Notification row. *)
Record t := mk {
  id : string;
  userId : string;
  message : string;
  relatedEntityId : option string;
  relatedEntityType : option string;
  isRead : bool;
  createdAt : option Date
}.

(** [notification.isRead = true] *)
Definition mark_read (n : t) : t :=
  {| id := id n;
     userId := userId n;
     message := message n;
     relatedEntityId := relatedEntityId n;
     relatedEntityType := relatedEntityType n;
     isRead := true;
     createdAt := createdAt n |}.
End Notification.

(** ** The store and the world around it *)

Record MemStorage := {
  users : JsMap.t User.t;
  complaints : JsMap.t Complaint.t;
  meetings : JsMap.t Meeting.t;
  scenarios : JsMap.t Scenario.t;
  notifications : JsMap.t Notification.t
}.

(** [ticks] readings of the clock and [draws] calls of [randomUUID] have
    been made so far. *)
Record World := {
  storage : MemStorage;
  ticks : nat;
  draws : nat
}.

(** Computations on the world. *)
Definition M (A : Type) : Type := World -> A * World.

Definition ret {A} (a : A) : M A := fun w => (a, w).

Definition bind {A B} (m : M A) (k : A -> M B) : M B :=
  fun w => let (a, w') := m w in k a w'.

Notation "x <- m ;; k" := (bind m (fun x => k))
  (at level 61, m at next level, right associativity).
Notation "m ;;; k" := (bind m (fun _ => k))
  (at level 61, right associativity).

Definition get_storage : M MemStorage := fun w => (storage w, w).

Definition put_storage (s : MemStorage) : M unit :=
  fun w => (tt, {| storage := s; ticks := ticks w; draws := draws w |}).

Definition set_users (m : JsMap.t User.t) (s : MemStorage) : MemStorage :=
  {| users := m; complaints := complaints s; meetings := meetings s;
     scenarios := scenarios s; notifications := notifications s |}.

Definition set_complaints (m : JsMap.t Complaint.t) (s : MemStorage)
  : MemStorage :=
  {| users := users s; complaints := m; meetings := meetings s;
     scenarios := scenarios s; notifications := notifications s |}.

Definition set_meetings (m : JsMap.t Meeting.t) (s : MemStorage)
  : MemStorage :=
  {| users := users s; complaints := complaints s; meetings := m;
     scenarios := scenarios s; notifications := notifications s |}.

Definition set_scenarios (m : JsMap.t Scenario.t) (s : MemStorage)
  : MemStorage :=
  {| users := users s; complaints := complaints s; meetings := meetings s;
     scenarios := m; notifications := notifications s |}.

Definition set_notifications (m : JsMap.t Notification.t) (s : MemStorage)
  : MemStorage :=
  {| users := users s; complaints := complaints s; meetings := meetings s;
     scenarios := scenarios s; notifications := m |}.

(** ** Requests and responses *)

(** [res.status(n).json(body)]; [res.json(body)] answers 200. A body that
    is only [{ message }] is kept apart from an entity body. *)
Inductive Reply (A : Type) :=
| Json (status : Z) (body : A)
| Message (status : Z) (message : string).

Arguments Message {A} status message.

Definition status_of {A} (r : Reply A) : Z :=
  match r with
  | Json s _ => s
  | Message s _ => s
  end.

(** The body of [POST /api/auth/login], as destructured by the handler;
    an absent property is [None]. *)
Module LoginBody.
Record t := mk {
  phone : option string;
  password : option string
}.
End LoginBody.

(** [{ user: userWithoutPassword, message }] *)
Module AuthReply.
Record t := mk {
  user : UserWithoutPassword.t;
  message : string
}.
End AuthReply.

Module Analysis.
(** Modelled from the spec: what [analyzeComplaint] of [services/openai]
    resolves to, [{category, priority, summary, recommendations, sentiment,
    confidence}]. *)
Record t := mk {
  category : string;
  priority : string;
  summary : string;
  recommendations : list string;
  sentiment : float;
  confidence : float
}.
End Analysis.

(** [x === o] for a string [x] and a request property [o]. *)
Definition strict_eq (x : string) (o : option string) : bool :=
  match o with
  | Some y => String.eqb x y
  | None => false
  end.

Definition empty_storage : MemStorage :=
  {| users := JsMap.empty; complaints := JsMap.empty;
     meetings := JsMap.empty; scenarios := JsMap.empty;
     notifications := JsMap.empty |}.


(** ** Bodies of the remaining responses *)

Module ScenarioAnalysis.
(** Modelled from the spec: what [generateScenarioResponse] of
    [services/openai] resolves to, [{response, recommendedActions,
    riskLevel}]. *)
Record t := mk {
  response : string;
  recommendedActions : list string;
  riskLevel : string
}.
End ScenarioAnalysis.

(** [{ message: "Invalid meeting data", error: error.message }] *)
Module InvalidMeeting.
Record t := mk {
  message : string;
  error : string
}.
End InvalidMeeting.

(** The object [GET /api/admin/stats] answers with. *)
Module AdminStats.
Record t := mk {
  totalUsers : nat;
  totalComplaints : nat;
  activeComplaints : nat;
  totalMeetings : nat;
  pendingReviews : nat;
  resolvedComplaints : nat;
  inProgressComplaints : nat;
  openComplaints : nat
}.
End AdminStats.

(** The object [GET /api/analytics/stats] answers with. *)
Module AnalyticsStats.
Record t := mk {
  activeIssues : nat;
  resolvedThisMonth : nat;
  upcomingMeetings : nat;
  aiRecommendations : nat
}.
End AnalyticsStats.

(** [Array.prototype.filter] with a callback that reads the world. *)
Fixpoint filterM {A} (p : A -> M bool) (l : list A) : M (list A) :=
  match l with
  | [] => ret []
  | x :: l' =>
      keep <- p x ;;
      rest <- filterM p l' ;;
      ret (if keep then x :: rest else rest)
  end.

(** The truthiness of a nullable string. *)
Definition truthy (s : option string) : bool := negb (falsy s).

(** ** Histories of store calls

    The mutating methods of [IStorage], and a reading of the clock made by
    a handler on its own, to speak of every world that a sequence of calls
    can build from a fresh store. *)

Inductive Call :=
| CreateUser (insertUser : InsertUser.t)
| UpdateUser (id : string) (updates : User.Partial)
| CreateComplaint (insertComplaint : InsertComplaint.t)
| UpdateComplaint (id : string) (updates : Complaint.Partial)
| CreateMeeting (insertMeeting : InsertMeeting.t)
| UpdateMeeting (id : string) (updates : Meeting.Partial)
| CreateScenario (insertScenario : InsertScenario.t)
| UpdateScenario (id : string) (updates : Scenario.Partial)
| CreateNotification (insertNotification : InsertNotification.t)
| MarkNotificationRead (id : string)
| ReadClock.

(** The update payload of a call carries an [id] property. *)
Definition call_sets_id (c : Call) : bool :=
  match c with
  | UpdateUser _ p => existsb User.sets_id p
  | UpdateComplaint _ p => existsb Complaint.sets_id p
  | UpdateMeeting _ p => existsb Meeting.sets_id p
  | UpdateScenario _ p => existsb Scenario.sets_id p
  | _ => false
  end.

(** ** Sample environments and requests

    Concrete inputs at which the properties below are exercised. *)

(** A clock that advances one millisecond a reading, a clock that stands
    still between readings, and identifiers that never repeat. *)
Definition ticking (n : nat) : Z := 1700000000000 + Z.of_nat n.

Definition standing (n : nat) : Z := 1700000000000.

Fixpoint nth_uuid (n : nat) : string :=
  match n with
  | O => "u"
  | S n' => "x" ++ nth_uuid n'
  end.

(** A request body carries what each schema makes of it. *)
Definition RawBody : Type := option InsertUser.t * option InsertComplaint.t.

Definition user_of (body : RawBody) : option InsertUser.t := fst body.

Definition complaint_of (body : RawBody) : option InsertComplaint.t := snd body.

Definition join_strings (l : list string) : string := String.concat "," l.

Definition ai_down (title description : string) : option Analysis.t := None.

Definition ai_up (title description : string) : option Analysis.t :=
  Some {| Analysis.category := "harassment";
          Analysis.priority := "high";
          Analysis.summary := "Repeated remarks in meetings";
          Analysis.recommendations := ["Interview"; "Mediate"];
          Analysis.sentiment := (-0.5)%float;
          Analysis.confidence := 0.75%float |}.

Definition grievance : InsertComplaint.t :=
  {| InsertComplaint.title := "Harassment";
     InsertComplaint.description := "Remarks in the weekly meeting";
     InsertComplaint.submitterId := "u1";
     InsertComplaint.status := None;
     InsertComplaint.priority := None;
     InsertComplaint.category := None;
     InsertComplaint.assignedTo := None;
     InsertComplaint.isAnonymous := None |}.

Definition bob (password email : string) : InsertUser.t :=
  {| InsertUser.username := "bob";
     InsertUser.password := password;
     InsertUser.email := email;
     InsertUser.phone := "+15550100";
     InsertUser.name := "Bob";
     InsertUser.role := None;
     InsertUser.department := None;
     InsertUser.isActive := None |}.

Definition sarah_again : InsertUser.t :=
  {| InsertUser.username := "sarah.j";
     InsertUser.password := "hunter2";
     InsertUser.email := "sarah.j@company.com";
     InsertUser.phone := "+1234567890";
     InsertUser.name := "Sarah J";
     InsertUser.role := None;
     InsertUser.department := None;
     InsertUser.isActive := None |}.

(** Carol, who registers as an inactive user. *)
Definition carol : InsertUser.t :=
  {| InsertUser.username := "carol";
     InsertUser.password := "carol-pw";
     InsertUser.email := "carol@company.com";
     InsertUser.phone := "+15550111";
     InsertUser.name := "Carol";
     InsertUser.role := Some "employee";
     InsertUser.department := Some "";
     InsertUser.isActive := Some false |}.

(** A request body that carries what each of the five schemas makes of
    it. *)
Module SampleBody.
Record t := mk {
  user : option InsertUser.t;
  complaint : option InsertComplaint.t;
  meeting : InsertMeeting.t + string;
  scenario : option InsertScenario.t;
  question : option string
}.
End SampleBody.

Definition unconverted (body : SampleBody.t) : SampleBody.t := body.

Definition scenario_ai_up (text : string) : option ScenarioAnalysis.t :=
  Some {| ScenarioAnalysis.response := "Hear both sides first";
          ScenarioAnalysis.recommendedActions := ["Listen"; "Document"];
          ScenarioAnalysis.riskLevel := "medium" |}.

Definition hr_ai_up (question : string) : option string :=
  Some "Please contact your HR manager.".

Definition hr_ai_down (question : string) : option string := None.

(** Months of thirty days and years of twelve of them, for a calendar. *)
Definition sample_month (t : Z) : Z := (t / 2592000000) mod 12.

Definition sample_year (t : Z) : Z := 1970 + t / 31104000000.

Definition kickoff : InsertMeeting.t :=
  {| InsertMeeting.title := "Kickoff";
     InsertMeeting.description := None;
     InsertMeeting.organizerId := "u";
     InsertMeeting.attendeeIds := Some ["u1"; "u2"];
     InsertMeeting.scheduledDate := date 1700003600000;
     InsertMeeting.duration := Some 0;
     InsertMeeting.status := None;
     InsertMeeting.meetingLink := None;
     InsertMeeting.relatedComplaintId := None |}.

Definition retro : InsertMeeting.t :=
  {| InsertMeeting.title := "Retrospective";
     InsertMeeting.description := Some "What went well";
     InsertMeeting.organizerId := "u";
     InsertMeeting.attendeeIds := None;
     InsertMeeting.scheduledDate := date 1700001800000;
     InsertMeeting.duration := Some 30;
     InsertMeeting.status := None;
     InsertMeeting.meetingLink := None;
     InsertMeeting.relatedComplaintId := None |}.

Definition drill : InsertScenario.t :=
  {| InsertScenario.scenario := "Two colleagues stop talking to each other" |}.

Definition reminder : InsertNotification.t :=
  {| InsertNotification.userId := "u1";
     InsertNotification.message := "Your complaint was received";
     InsertNotification.relatedEntityId := None;
     InsertNotification.relatedEntityType := None;
     InsertNotification.isRead := None |}.

Definition sample_body : SampleBody.t :=
  {| SampleBody.user := Some (bob "first-pw" "bob1@company.com");
     SampleBody.complaint := Some grievance;
     SampleBody.meeting := inl kickoff;
     SampleBody.scenario := Some drill;
     SampleBody.question := Some "How do I file a complaint?" |}.

Definition sarah_credentials : LoginBody.t :=
  {| LoginBody.phone := Some "+1234567890";
     LoginBody.password := Some "password123" |}.
Section Server.

(** The n-th reading of the clock and the n-th identifier drawn. *)
Variable clock : nat -> Z.
Variable uuid : nat -> string.

(** Request bodies, and the two zod schemas used below: [parse] either
    returns the typed data or throws ([None]). *)
Variable Body : Type.
Variable insertUserSchema_parse : Body -> option InsertUser.t.
Variable insertComplaintSchema_parse : Body -> option InsertComplaint.t.

(** The language-model call: [None] when the promise rejects, whatever the
    cause. *)
Variable analyzeComplaint : string -> string -> option Analysis.t.

(** [JSON.stringify] on an array of strings. *)
Variable JSON_stringify : list string -> string.

(** [new Date()] *)
Definition new_Date : M Date :=
  fun w => (date (clock (ticks w)),
            {| storage := storage w; ticks := S (ticks w); draws := draws w |}).

(** [randomUUID()] *)
Definition randomUUID : M string :=
  fun w => (uuid (draws w),
            {| storage := storage w; ticks := ticks w; draws := S (draws w) |}).

(** *** Users *)

Definition getUser (id : string) : M (option User.t) :=
  s <- get_storage ;;
  ret (JsMap.get id (users s)).

Definition getUserByUsername (username : string) : M (option User.t) :=
  s <- get_storage ;;
  ret (find_first (fun user => String.eqb (User.username user) username)
         (JsMap.values (users s))).

Definition getUsers : M (list User.t) :=
  s <- get_storage ;;
  ret (JsMap.values (users s)).

Definition getUserByPhone (phone : string) : M (option User.t) :=
  s <- get_storage ;;
  ret (find_first (fun user => String.eqb (User.phone user) phone)
         (JsMap.values (users s))).

Definition createUser (insertUser : InsertUser.t) : M User.t :=
  id <- randomUUID ;;
  now <- new_Date ;;
  let user :=
    {| User.id := id;
       User.username := InsertUser.username insertUser;
       User.password := InsertUser.password insertUser;
       User.email := InsertUser.email insertUser;
       User.phone := InsertUser.phone insertUser;
       User.name := InsertUser.name insertUser;
       User.role := str_or (InsertUser.role insertUser) "employee";
       User.department := str_or_null (InsertUser.department insertUser);
       User.isActive := bool_nullish (InsertUser.isActive insertUser) true;
       User.lastLogin := None;
       User.createdAt := Some now |} in
  s <- get_storage ;;
  put_storage (set_users (JsMap.set id user (users s)) s) ;;;
  ret user.

Definition updateUser (id : string) (updates : User.Partial)
  : M (option User.t) :=
  s <- get_storage ;;
  match JsMap.get id (users s) with
  | None => ret None
  | Some user =>
      let updated := User.spread user updates in
      put_storage (set_users (JsMap.set id updated (users s)) s) ;;;
      ret (Some updated)
  end.

(** *** Complaints *)

Definition getComplaints : M (list Complaint.t) :=
  s <- get_storage ;;
  ret (sort (fun a b => sort_order
                          (minus (getTime (Date_of (Complaint.createdAt b)))
                             (getTime (Date_of (Complaint.createdAt a)))))
         (JsMap.values (complaints s))).

Definition getComplaint (id : string) : M (option Complaint.t) :=
  s <- get_storage ;;
  ret (JsMap.get id (complaints s)).

Definition createComplaint (insertComplaint : InsertComplaint.t)
  : M Complaint.t :=
  id <- randomUUID ;;
  created <- new_Date ;;
  updated <- new_Date ;;
  let complaint :=
    {| Complaint.id := id;
       Complaint.title := InsertComplaint.title insertComplaint;
       Complaint.description := InsertComplaint.description insertComplaint;
       Complaint.submitterId := InsertComplaint.submitterId insertComplaint;
       Complaint.status := str_or (InsertComplaint.status insertComplaint) "open";
       Complaint.priority :=
         str_or (InsertComplaint.priority insertComplaint) "medium";
       Complaint.category := InsertComplaint.category insertComplaint;
       Complaint.assignedTo :=
         str_or_null (InsertComplaint.assignedTo insertComplaint);
       Complaint.aiAnalysis := None;
       Complaint.aiRecommendations := None;
       Complaint.sentimentScore := None;
       Complaint.confidenceScore := None;
       Complaint.isAnonymous :=
         bool_nullish (InsertComplaint.isAnonymous insertComplaint) false;
       Complaint.createdAt := Some created;
       Complaint.updatedAt := Some updated |} in
  s <- get_storage ;;
  put_storage (set_complaints (JsMap.set id complaint (complaints s)) s) ;;;
  ret complaint.

Definition updateComplaint (id : string) (updates : Complaint.Partial)
  : M (option Complaint.t) :=
  s <- get_storage ;;
  match JsMap.get id (complaints s) with
  | None => ret None
  | Some complaint =>
      now <- new_Date ;;
      let updated :=
        Complaint.assign (Complaint.F_updatedAt (Some now))
          (Complaint.spread complaint updates) in
      put_storage (set_complaints (JsMap.set id updated (complaints s)) s) ;;;
      ret (Some updated)
  end.

Definition getComplaintsByUser (userId : string) : M (list Complaint.t) :=
  s <- get_storage ;;
  ret (filter (fun complaint => String.eqb (Complaint.submitterId complaint) userId)
         (JsMap.values (complaints s))).

(** *** Meetings *)

Definition getMeetings : M (list Meeting.t) :=
  s <- get_storage ;;
  ret (sort (fun a b => sort_order
                          (minus (getTime (Meeting.scheduledDate a))
                             (getTime (Meeting.scheduledDate b))))
         (JsMap.values (meetings s))).

Definition getMeeting (id : string) : M (option Meeting.t) :=
  s <- get_storage ;;
  ret (JsMap.get id (meetings s)).

Definition createMeeting (insertMeeting : InsertMeeting.t) : M Meeting.t :=
  id <- randomUUID ;;
  now <- new_Date ;;
  let meeting :=
    {| Meeting.id := id;
       Meeting.title := InsertMeeting.title insertMeeting;
       Meeting.description := str_or_null (InsertMeeting.description insertMeeting);
       Meeting.organizerId := InsertMeeting.organizerId insertMeeting;
       Meeting.attendeeIds := InsertMeeting.attendeeIds insertMeeting;
       Meeting.scheduledDate := InsertMeeting.scheduledDate insertMeeting;
       Meeting.duration := num_or (InsertMeeting.duration insertMeeting) 30;
       Meeting.status := str_or (InsertMeeting.status insertMeeting) "scheduled";
       Meeting.meetingLink := str_or_null (InsertMeeting.meetingLink insertMeeting);
       Meeting.relatedComplaintId :=
         str_or_null (InsertMeeting.relatedComplaintId insertMeeting);
       Meeting.createdAt := Some now |} in
  s <- get_storage ;;
  put_storage (set_meetings (JsMap.set id meeting (meetings s)) s) ;;;
  ret meeting.

Definition updateMeeting (id : string) (updates : Meeting.Partial)
  : M (option Meeting.t) :=
  s <- get_storage ;;
  match JsMap.get id (meetings s) with
  | None => ret None
  | Some meeting =>
      let updated := Meeting.spread meeting updates in
      put_storage (set_meetings (JsMap.set id updated (meetings s)) s) ;;;
      ret (Some updated)
  end.

Definition getMeetingsByUser (userId : string) : M (list Meeting.t) :=
  s <- get_storage ;;
  ret (filter
         (fun meeting =>
            String.eqb (Meeting.organizerId meeting) userId
            || match Meeting.attendeeIds meeting with
               | Some ids => existsb (String.eqb userId) ids
               | None => false
               end)
         (JsMap.values (meetings s))).

(** *** Scenarios *)

Definition getScenarios : M (list Scenario.t) :=
  s <- get_storage ;;
  ret (sort (fun a b => sort_order
                          (minus (getTime (Date_of (Scenario.createdAt b)))
                             (getTime (Date_of (Scenario.createdAt a)))))
         (JsMap.values (scenarios s))).

Definition getScenario (id : string) : M (option Scenario.t) :=
  s <- get_storage ;;
  ret (JsMap.get id (scenarios s)).

Definition createScenario (insertScenario : InsertScenario.t) : M Scenario.t :=
  id <- randomUUID ;;
  now <- new_Date ;;
  let scenario :=
    {| Scenario.id := id;
       Scenario.scenario := InsertScenario.scenario insertScenario;
       Scenario.aiResponse := None;
       Scenario.recommendedActions := None;
       Scenario.riskLevel := None;
       Scenario.createdAt := Some now |} in
  s <- get_storage ;;
  put_storage (set_scenarios (JsMap.set id scenario (scenarios s)) s) ;;;
  ret scenario.

Definition updateScenario (id : string) (updates : Scenario.Partial)
  : M (option Scenario.t) :=
  s <- get_storage ;;
  match JsMap.get id (scenarios s) with
  | None => ret None
  | Some scenario =>
      let updated := Scenario.spread scenario updates in
      put_storage (set_scenarios (JsMap.set id updated (scenarios s)) s) ;;;
      ret (Some updated)
  end.

(** *** Notifications *)

Definition getNotifications (userId : string) : M (list Notification.t) :=
  s <- get_storage ;;
  ret (sort (fun a b => sort_order
                          (minus (getTime (Date_of (Notification.createdAt b)))
                             (getTime (Date_of (Notification.createdAt a)))))
         (filter (fun notification =>
                    String.eqb (Notification.userId notification) userId)
            (JsMap.values (notifications s)))).

Definition createNotification (insertNotification : InsertNotification.t)
  : M Notification.t :=
  id <- randomUUID ;;
  now <- new_Date ;;
  let notification :=
    {| Notification.id := id;
       Notification.userId := InsertNotification.userId insertNotification;
       Notification.message := InsertNotification.message insertNotification;
       Notification.relatedEntityId :=
         str_or_null (InsertNotification.relatedEntityId insertNotification);
       Notification.relatedEntityType :=
         str_or_null (InsertNotification.relatedEntityType insertNotification);
       Notification.isRead :=
         bool_nullish (InsertNotification.isRead insertNotification) false;
       Notification.createdAt := Some now |} in
  s <- get_storage ;;
  put_storage
    (set_notifications (JsMap.set id notification (notifications s)) s) ;;;
  ret notification.

(** The stored object itself is mutated. *)
Definition markNotificationRead (id : string) : M bool :=
  s <- get_storage ;;
  match JsMap.get id (notifications s) with
  | None => ret false
  | Some notification =>
      put_storage
        (set_notifications
           (JsMap.set id (Notification.mark_read notification) (notifications s))
           s) ;;;
      ret true
  end.

(** *** [new MemStorage()] *)

(** [createUser] does not suspend, so the default user is in the map when
    the constructor returns. *)
Definition initializeDefaults : M User.t :=
  createUser
    {| InsertUser.username := "sarah.johnson";
       InsertUser.password := "password123";
       InsertUser.email := "sarah.johnson@company.com";
       InsertUser.phone := "+1234567890";
       InsertUser.name := "Sarah Johnson";
       InsertUser.role := Some "hr_manager";
       InsertUser.department := Some "Human Resources";
       InsertUser.isActive := None |}.

Definition new_MemStorage : World :=
  snd (initializeDefaults {| storage := empty_storage; ticks := 0; draws := 0 |}).

(** ** Request handlers ([server/routes.ts])

    A handler runs to its response without another request in between. The
    store never throws, so the [catch] branches that answer 500 are not
    reachable and are left out. *)

(** [GET /api/complaints] *)
Definition get_complaints : M (Reply (list Complaint.t)) :=
  complaints <- getComplaints ;;
  ret (Json 200 complaints).

(** [GET /api/complaints/:id] *)
Definition get_complaint (id : string) : M (Reply Complaint.t) :=
  complaint <- getComplaint id ;;
  match complaint with
  | None => ret (Message 404 "Complaint not found")
  | Some c => ret (Json 200 c)
  end.

(** The payload the handler builds from a successful analysis. *)
Definition analysis_updates (analysis : Analysis.t) : Complaint.Partial :=
  [ Complaint.F_category (Some (Analysis.category analysis));
    Complaint.F_priority (Analysis.priority analysis);
    Complaint.F_aiAnalysis (Some (Analysis.summary analysis));
    Complaint.F_aiRecommendations
      (Some (JSON_stringify (Analysis.recommendations analysis)));
    Complaint.F_sentimentScore (Some (Analysis.sentiment analysis));
    Complaint.F_confidenceScore (Some (Analysis.confidence analysis)) ].

(** [POST /api/complaints] *)
Definition post_complaints (body : Body) : M (Reply Complaint.t) :=
  match insertComplaintSchema_parse body with
  | None => ret (Message 400 "Invalid complaint data")
  | Some complaintData =>
      complaint <- createComplaint complaintData ;;
      match analyzeComplaint (Complaint.title complaint)
              (Complaint.description complaint) with
      | Some analysis =>
          updateComplaint (Complaint.id complaint) (analysis_updates analysis) ;;;
          ret tt
      | None => ret tt
      end ;;;
      ret (Json 201 complaint)
  end.

(** [PATCH /api/complaints/:id]; the body is handed to the store as it is. *)
Definition patch_complaint (id : string) (updates : Complaint.Partial)
  : M (Reply Complaint.t) :=
  complaint <- updateComplaint id updates ;;
  match complaint with
  | None => ret (Message 404 "Complaint not found")
  | Some c => ret (Json 200 c)
  end.

(** [GET /api/meetings] *)
Definition get_meetings : M (Reply (list Meeting.t)) :=
  meetings <- getMeetings ;;
  ret (Json 200 meetings).

(** [POST /api/users] *)
Definition post_users (body : Body) : M (Reply User.t) :=
  match insertUserSchema_parse body with
  | None => ret (Message 400 "Invalid user data")
  | Some userData =>
      user <- createUser userData ;;
      ret (Json 201 user)
  end.

(** [POST /api/auth/login] *)
Definition post_auth_login (body : LoginBody.t) : M (Reply AuthReply.t) :=
  let phone := LoginBody.phone body in
  let password := LoginBody.password body in
  if falsy phone || falsy password then
    ret (Message 400 "Phone number and password are required")
  else
    users <- getUsers ;;
    match find_first
            (fun u => strict_eq (User.phone u) phone
                      && strict_eq (User.password u) password) users with
    | None => ret (Message 401 "Invalid phone number or password")
    | Some user =>
        if negb (User.isActive user) then
          ret (Message 401 "Invalid phone number or password")
        else
          now <- new_Date ;;
          updateUser (User.id user) [User.F_lastLogin (Some now)] ;;;
          ret (Json 200
                 {| AuthReply.user := UserWithoutPassword.of_user user;
                    AuthReply.message := "Login successful" |})
    end.

(** [POST /api/auth/register] *)
Definition post_auth_register (body : Body) : M (Reply AuthReply.t) :=
  match insertUserSchema_parse body with
  | None => ret (Message 400 "Registration failed")
  | Some userData =>
      users <- getUsers ;;
      match find_first
              (fun u => String.eqb (User.phone u) (InsertUser.phone userData)
                        || String.eqb (User.email u) (InsertUser.email userData))
              users with
      | Some existingUser =>
          ret (Message 400
                 (if String.eqb (User.phone existingUser)
                       (InsertUser.phone userData)
                  then "Phone number already registered"
                  else "Email already registered"))
      | None =>
          user <- createUser userData ;;
          ret (Json 201
                 {| AuthReply.user := UserWithoutPassword.of_user user;
                    AuthReply.message := "Registration successful" |})
      end
  end.

(** ** Histories of store calls *)

Definition call (c : Call) (w : World) : World :=
  match c with
  | CreateUser u => snd (createUser u w)
  | UpdateUser id p => snd (updateUser id p w)
  | CreateComplaint c => snd (createComplaint c w)
  | UpdateComplaint id p => snd (updateComplaint id p w)
  | CreateMeeting m => snd (createMeeting m w)
  | UpdateMeeting id p => snd (updateMeeting id p w)
  | CreateScenario s => snd (createScenario s w)
  | UpdateScenario id p => snd (updateScenario id p w)
  | CreateNotification n => snd (createNotification n w)
  | MarkNotificationRead id => snd (markNotificationRead id w)
  | ReadClock => snd (new_Date w)
  end.

Definition run (cs : list Call) (w : World) : World :=
  fold_left (fun acc c => call c acc) cs w.

(** ** The remaining handlers *)

(** The other schemas ([insertMeetingSchema.parse] throws an error whose
    [message] the handler sends back), the conversion the meeting handler
    applies to [req.body.scheduledDate] when it is a string, the two other
    language-model calls ([None] when the promise rejects), and the
    calendar month and year of a time value. *)
Variable insertMeetingSchema_parse : Body -> InsertMeeting.t + string.
Variable insertScenarioSchema_parse : Body -> option InsertScenario.t.
Variable question_parse : Body -> option string.
Variable convert_scheduledDate : Body -> Body.
Variable generateScenarioResponse : string -> option ScenarioAnalysis.t.
Variable generateHRResponse : string -> option string.
Variable getMonth : Z -> Z.
Variable getFullYear : Z -> Z.

(** [GET /api/users/:id] *)
Definition get_user (id : string) : M (Reply User.t) :=
  user <- getUser id ;;
  match user with
  | None => ret (Message 404 "User not found")
  | Some u => ret (Json 200 u)
  end.

(** [GET /api/meetings/:id] *)
Definition get_meeting (id : string) : M (Reply Meeting.t) :=
  meeting <- getMeeting id ;;
  match meeting with
  | None => ret (Message 404 "Meeting not found")
  | Some m => ret (Json 200 m)
  end.

(** [POST /api/meetings] *)
Definition post_meetings (body : Body)
  : M (Reply (Meeting.t + InvalidMeeting.t)) :=
  match insertMeetingSchema_parse (convert_scheduledDate body) with
  | inr error_message =>
      ret (Json 400
             (inr {| InvalidMeeting.message := "Invalid meeting data";
                     InvalidMeeting.error := error_message |}))
  | inl meetingData =>
      meeting <- createMeeting meetingData ;;
      ret (Json 201 (inl meeting))
  end.

(** [GET /api/scenarios] *)
Definition get_scenarios : M (Reply (list Scenario.t)) :=
  scenarios <- getScenarios ;;
  ret (Json 200 scenarios).

(** [GET /api/scenarios/:id] *)
Definition get_scenario (id : string) : M (Reply Scenario.t) :=
  scenario <- getScenario id ;;
  match scenario with
  | None => ret (Message 404 "Scenario not found")
  | Some s => ret (Json 200 s)
  end.

(** The payload the handler builds from a successful scenario analysis. *)
Definition scenario_updates (aiResult : ScenarioAnalysis.t) : Scenario.Partial :=
  [ Scenario.F_aiResponse (Some (ScenarioAnalysis.response aiResult));
    Scenario.F_recommendedActions
      (Some (JSON_stringify (ScenarioAnalysis.recommendedActions aiResult)));
    Scenario.F_riskLevel (Some (ScenarioAnalysis.riskLevel aiResult)) ].

(** [POST /api/scenarios] *)
Definition post_scenarios (body : Body) : M (Reply Scenario.t) :=
  match insertScenarioSchema_parse body with
  | None => ret (Message 400 "Invalid scenario data")
  | Some scenarioData =>
      scenario <- createScenario scenarioData ;;
      match generateScenarioResponse (Scenario.scenario scenario) with
      | Some aiResult =>
          updateScenario (Scenario.id scenario) (scenario_updates aiResult) ;;;
          ret tt
      | None => ret tt
      end ;;;
      ret (Json 201 scenario)
  end.

(** [POST /api/ai/chat]; one [catch] answers 400 for a body without a
    string [question] and for a failed language-model call alike. *)
Definition post_ai_chat (body : Body) : M (Reply string) :=
  match question_parse body with
  | None => ret (Message 400 "Invalid request")
  | Some question =>
      match generateHRResponse question with
      | None => ret (Message 400 "Invalid request")
      | Some response => ret (Json 200 response)
      end
  end.

Definition is_open (c : Complaint.t) : bool :=
  String.eqb (Complaint.status c) "open".

Definition is_in_progress (c : Complaint.t) : bool :=
  String.eqb (Complaint.status c) "in_progress".

Definition is_resolved (c : Complaint.t) : bool :=
  String.eqb (Complaint.status c) "resolved".

Definition is_scheduled (m : Meeting.t) : bool :=
  String.eqb (Meeting.status m) "scheduled".

(** [GET /api/admin/stats] *)
Definition get_admin_stats : M (Reply AdminStats.t) :=
  users <- getUsers ;;
  complaints <- getComplaints ;;
  meetings <- getMeetings ;;
  ret (Json 200
         {| AdminStats.totalUsers := length users;
            AdminStats.totalComplaints := length complaints;
            AdminStats.activeComplaints :=
              length (filter (fun c => is_open c || is_in_progress c) complaints);
            AdminStats.totalMeetings := length (filter is_scheduled meetings);
            AdminStats.pendingReviews := length (filter is_open complaints);
            AdminStats.resolvedComplaints := length (filter is_resolved complaints);
            AdminStats.inProgressComplaints :=
              length (filter is_in_progress complaints);
            AdminStats.openComplaints := length (filter is_open complaints) |}).

(** [d.getMonth()] and [d.getFullYear()]: NaN for the invalid date. *)
Definition month_of (d : Date) : option Z := option_map getMonth (getTime d).

Definition year_of (d : Date) : option Z := option_map getFullYear (getTime d).

(** The callback of [resolvedThisMonth]: the clock is read twice for each
    complaint, whatever its status. *)
Definition resolved_this_month (c : Complaint.t) : M bool :=
  let createdDate := Date_of (Complaint.createdAt c) in
  month_now <- new_Date ;;
  year_now <- new_Date ;;
  ret (is_resolved c
       && number_eq (month_of createdDate) (month_of month_now)
       && number_eq (year_of createdDate) (year_of year_now)).

(** The callback of [upcomingMeetings]: the clock is read once for each
    meeting. *)
Definition is_upcoming (m : Meeting.t) : M bool :=
  let meetingDate := Meeting.scheduledDate m in
  today <- new_Date ;;
  ret (number_ge (getTime meetingDate) (getTime today) && is_scheduled m).

(** [GET /api/analytics/stats] *)
Definition get_analytics_stats : M (Reply AnalyticsStats.t) :=
  complaints <- getComplaints ;;
  meetings <- getMeetings ;;
  let activeIssues :=
    length (filter (fun c => is_open c || is_in_progress c) complaints) in
  resolved <- filterM resolved_this_month complaints ;;
  upcoming <- filterM is_upcoming meetings ;;
  let aiRecommendations :=
    length (filter (fun c => truthy (Complaint.aiRecommendations c)) complaints) in
  ret (Json 200
         {| AnalyticsStats.activeIssues := activeIssues;
            AnalyticsStats.resolvedThisMonth := length resolved;
            AnalyticsStats.upcomingMeetings := length upcoming;
            AnalyticsStats.aiRecommendations := aiRecommendations |}).

(** [GET /api/notifications/:userId] *)
Definition get_notifications (userId : string) : M (Reply (list Notification.t)) :=
  notifications <- getNotifications userId ;;
  ret (Json 200 notifications).

(** ** Invariants of the store *)

(** The order a comparator [fun a b => key a - key b] asks for. *)
Definition ascending {A} (key : A -> Z) (a b : A) : Prop := key a <= key b.

(** Every entry of [m] is stored under the [id] it carries. *)
Definition keyed {V} (id_of : V -> string) (m : JsMap.t V) : Prop :=
  forall k v, In (k, v) m -> id_of v = k.

(** The keys of [m] are distinct and each is one of the first [n]
    identifiers drawn. *)
Definition drawn {V} (n : nat) (m : JsMap.t V) : Prop :=
  NoDup (JsMap.keys m) /\
  forall k, In k (JsMap.keys m) -> exists i, (i < n)%nat /\ k = uuid i.

(** The [updatedAt] of every complaint of [m] is one of the first [n]
    readings of the clock. *)
Definition stamped (n : nat) (m : JsMap.t Complaint.t) : Prop :=
  forall k c, In (k, c) m ->
    exists i, (i < n)%nat /\ Complaint.updatedAt c = Some (date (clock i)).

Record consistent (w : World) : Prop := {
  users_drawn : drawn (draws w) (users (storage w));
  complaints_drawn : drawn (draws w) (complaints (storage w));
  meetings_drawn : drawn (draws w) (meetings (storage w));
  scenarios_drawn : drawn (draws w) (scenarios (storage w));
  notifications_drawn : drawn (draws w) (notifications (storage w));
  complaints_stamped : stamped (ticks w) (complaints (storage w))
}.

Record ids_kept (w : World) : Prop := {
  users_keyed : keyed User.id (users (storage w));
  complaints_keyed : keyed Complaint.id (complaints (storage w));
  meetings_keyed : keyed Meeting.id (meetings (storage w));
  scenarios_keyed : keyed Scenario.id (scenarios (storage w));
  notifications_keyed : keyed Notification.id (notifications (storage w))
}.

(** No identifier is in use in any collection. *)
Definition unused (id : string) (s : MemStorage) : Prop :=
  JsMap.get id (users s) = None /\
  JsMap.get id (complaints s) = None /\
  JsMap.get id (meetings s) = None /\
  JsMap.get id (scenarios s) = None /\
  JsMap.get id (notifications s) = None.

(** The user [initializeDefaults] creates, as the first draw and the first
    clock reading make it. *)
Definition hrManager : User.t :=
  {| User.id := uuid 0;
     User.username := "sarah.johnson";
     User.password := "password123";
     User.email := "sarah.johnson@company.com";
     User.phone := "+1234567890";
     User.name := "Sarah Johnson";
     User.role := "hr_manager";
     User.department := Some "Human Resources";
     User.isActive := true;
     User.lastLogin := None;
     User.createdAt := Some (date (clock 0)) |}.

(** ** Notions used for the rest of the store *)

(** The key [k] is in use in [m]. *)
Definition present {V} (k : string) (m : JsMap.t V) : Prop :=
  JsMap.get k m <> None.

(** Two complaints differ at most in [updatedAt]. *)
Definition same_but_updatedAt (c c' : Complaint.t) : Prop :=
  forall k, k <> Complaint.K_updatedAt -> Complaint.agree k c c'.

(** From [w] to [w'] no collection has lost a key or become shorter. *)
Record grown (w w' : World) : Prop := {
  users_grown :
    (forall k, present k (users (storage w)) -> present k (users (storage w')))
    /\ (length (users (storage w)) <= length (users (storage w')))%nat;
  complaints_grown :
    (forall k, present k (complaints (storage w)) ->
               present k (complaints (storage w')))
    /\ (length (complaints (storage w)) <= length (complaints (storage w')))%nat;
  meetings_grown :
    (forall k, present k (meetings (storage w)) ->
               present k (meetings (storage w')))
    /\ (length (meetings (storage w)) <= length (meetings (storage w')))%nat;
  scenarios_grown :
    (forall k, present k (scenarios (storage w)) ->
               present k (scenarios (storage w')))
    /\ (length (scenarios (storage w)) <= length (scenarios (storage w')))%nat;
  notifications_grown :
    (forall k, present k (notifications (storage w)) ->
               present k (notifications (storage w')))
    /\ (length (notifications (storage w))
        <= length (notifications (storage w')))%nat
}.

(** The requests the handlers above serve. *)
Inductive Request :=
| GetUser (id : string)
| PostUsers (body : Body)
| GetComplaints
| GetComplaint (id : string)
| PostComplaints (body : Body)
| PatchComplaint (id : string) (updates : Complaint.Partial)
| GetMeetings
| GetMeeting (id : string)
| PostMeetings (body : Body)
| GetScenarios
| GetScenario (id : string)
| PostScenarios (body : Body)
| PostAiChat (body : Body)
| PostAuthLogin (credentials : LoginBody.t)
| PostAuthRegister (body : Body)
| GetAdminStats
| GetAnalyticsStats
| GetNotifications (userId : string).

(** The world after a request has been served. *)
Definition serve (r : Request) (w : World) : World :=
  match r with
  | GetUser id => snd (get_user id w)
  | PostUsers body => snd (post_users body w)
  | GetComplaints => snd (get_complaints w)
  | GetComplaint id => snd (get_complaint id w)
  | PostComplaints body => snd (post_complaints body w)
  | PatchComplaint id updates => snd (patch_complaint id updates w)
  | GetMeetings => snd (get_meetings w)
  | GetMeeting id => snd (get_meeting id w)
  | PostMeetings body => snd (post_meetings body w)
  | GetScenarios => snd (get_scenarios w)
  | GetScenario id => snd (get_scenario id w)
  | PostScenarios body => snd (post_scenarios body w)
  | PostAiChat body => snd (post_ai_chat body w)
  | PostAuthLogin credentials => snd (post_auth_login credentials w)
  | PostAuthRegister body => snd (post_auth_register body w)
  | GetAdminStats => snd (get_admin_stats w)
  | GetAnalyticsStats => snd (get_analytics_stats w)
  | GetNotifications userId => snd (get_notifications userId w)
  end.

Definition serve_all (rs : list Request) (w : World) : World :=
  fold_left (fun acc r => serve r acc) rs w.

(** What the default user keeps whatever is served: every property but
    [lastLogin], as [initializeDefaults] set it. *)
Definition default_fields (u : User.t) : Prop :=
  User.id u = uuid 0 /\
  User.username u = "sarah.johnson" /\
  User.password u = "password123" /\
  User.email u = "sarah.johnson@company.com" /\
  User.phone u = "+1234567890" /\
  User.name u = "Sarah Johnson" /\
  User.role u = "hr_manager" /\
  User.department u = Some "Human Resources" /\
  User.isActive u = true /\
  User.createdAt u = Some (date (clock 0)).

(** The default user heads the users of the store, as it was created but
    for [lastLogin]; at least one identifier was drawn. *)
Definition default_user_first (w : World) : Prop :=
  exists u rest,
    users (storage w) = (uuid 0, u) :: rest /\
    default_fields u /\
    (1 <= draws w)%nat.

(** [p] is [u] without its password: each of the other ten properties has
    the value it has in [u]. *)
Definition without_password (p : UserWithoutPassword.t) (u : User.t) : Prop :=
  UserWithoutPassword.id p = User.id u /\
  UserWithoutPassword.username p = User.username u /\
  UserWithoutPassword.email p = User.email u /\
  UserWithoutPassword.phone p = User.phone u /\
  UserWithoutPassword.name p = User.name u /\
  UserWithoutPassword.role p = User.role u /\
  UserWithoutPassword.department p = User.department u /\
  UserWithoutPassword.isActive p = User.isActive u /\
  UserWithoutPassword.lastLogin p = User.lastLogin u /\
  UserWithoutPassword.createdAt p = User.createdAt u.

(** The date [x] is not earlier than the date [y]; both have a time
    value. *)
Definition not_before (x y : Date) : Prop :=
  exists tx ty, getTime x = Some tx /\ getTime y = Some ty /\ ty <= tx.

(** The time value of a date that has one. *)
Definition time_value (d : Date) : Z :=
  match d with
  | date t => t
  | Invalid_Date => 0
  end.

(** [user] is what a creation makes of the request [d]: the properties of
    the request, the defaults for those it leaves out, the identifier [id],
    the creation time [now], and no login yet. *)
Definition made_from (user : User.t) (d : InsertUser.t) (id : string)
           (now : Date) : Prop :=
  User.id user = id /\
  User.username user = InsertUser.username d /\
  User.password user = InsertUser.password d /\
  User.email user = InsertUser.email d /\
  User.phone user = InsertUser.phone d /\
  User.name user = InsertUser.name d /\
  User.role user = match InsertUser.role d with
                   | Some r => if String.eqb r "" then "employee" else r
                   | None => "employee"
                   end /\
  User.department user = match InsertUser.department d with
                         | Some v => if String.eqb v "" then None else Some v
                         | None => None
                         end /\
  User.isActive user = match InsertUser.isActive d with
                       | Some b => b
                       | None => true
                       end /\
  User.lastLogin user = None /\
  User.createdAt user = Some now.

(** Two replies differ at most in [lastLogin]. *)
Definition same_but_lastLogin (p q : UserWithoutPassword.t) : Prop :=
  UserWithoutPassword.id p = UserWithoutPassword.id q /\
  UserWithoutPassword.username p = UserWithoutPassword.username q /\
  UserWithoutPassword.email p = UserWithoutPassword.email q /\
  UserWithoutPassword.phone p = UserWithoutPassword.phone q /\
  UserWithoutPassword.name p = UserWithoutPassword.name q /\
  UserWithoutPassword.role p = UserWithoutPassword.role q /\
  UserWithoutPassword.department p = UserWithoutPassword.department q /\
  UserWithoutPassword.isActive p = UserWithoutPassword.isActive q /\
  UserWithoutPassword.createdAt p = UserWithoutPassword.createdAt q.

(** ** Facts about [JsMap], [find_first] and [sort] *)

Lemma get_set_same V (k : string) (v : V) (m : JsMap.t V) :
  JsMap.get k (JsMap.set k v m) = Some v.
Proof.
  induction m as [|[k' v'] m IH]; simpl.
  - now rewrite String.eqb_refl.
  - destruct (String.eqb k k') eqn:E; simpl.
    + now rewrite String.eqb_refl.
    + now rewrite E.
Qed.

Lemma get_set_other V (k k' : string) (v : V) (m : JsMap.t V) :
  k <> k' -> JsMap.get k' (JsMap.set k v m) = JsMap.get k' m.
Proof.
  intros Hne. induction m as [|[k0 v0] m IH]; simpl.
  - destruct (String.eqb_spec k' k); congruence.
  - destruct (String.eqb_spec k k0) as [->|Hk]; simpl.
    + destruct (String.eqb_spec k' k0); congruence.
    + now rewrite IH.
Qed.

Lemma get_In V (k : string) (v : V) (m : JsMap.t V) :
  JsMap.get k m = Some v -> In (k, v) m.
Proof.
  induction m as [|[k' v'] m IH]; simpl; [discriminate|].
  destruct (String.eqb_spec k k') as [->|_].
  - intros [= ->]. now left.
  - intros H. right. auto.
Qed.

Lemma get_None_keys V (k : string) (m : JsMap.t V) :
  JsMap.get k m = None <-> ~ In k (JsMap.keys m).
Proof.
  induction m as [|[k' v'] m IH]; simpl.
  - split; [intros _ [] | reflexivity].
  - destruct (String.eqb_spec k k') as [->|Hne].
    + split; [discriminate | intros H; exfalso; apply H; now left].
    + rewrite IH. split; intros H.
      * intros [E|E]; [congruence | exact (H E)].
      * intros E. apply H. now right.
Qed.

Lemma In_set V (k : string) (v : V) (m : JsMap.t V) (e : string * V) :
  In e (JsMap.set k v m) -> e = (k, v) \/ In e m.
Proof.
  induction m as [|[k' v'] m IH]; simpl.
  - intros [H|[]]. now left.
  - destruct (String.eqb k k'); simpl.
    + intros [H|H]; [now left | right; now right].
    + intros [H|H]; [right; now left|].
      destruct (IH H); [now left | right; now right].
Qed.

Lemma keys_set_NoDup V (k : string) (v : V) (m : JsMap.t V) :
  NoDup (JsMap.keys m) -> NoDup (JsMap.keys (JsMap.set k v m)).
Proof.
  induction m as [|[k' v'] m IH]; simpl; intros Hnd.
  - constructor; [intros [] | constructor].
  - inversion Hnd as [|? ? Hnotin Hnd']; subst.
    destruct (String.eqb_spec k k') as [->|Hne]; simpl.
    + now constructor.
    + constructor; [|now apply IH].
      intros Hin. apply Hnotin.
      unfold JsMap.keys in *. apply in_map_iff in Hin.
      destruct Hin as [[k0 v0] [Hk Hin]]. simpl in Hk. subst k0.
      apply In_set in Hin. destruct Hin as [[= -> ->]|Hin]; [congruence|].
      apply in_map_iff. now exists (k', v0).
Qed.

(** With distinct keys, an entry of the list is what [get] returns. *)
Lemma In_get V (k : string) (v : V) (m : JsMap.t V) :
  NoDup (JsMap.keys m) -> In (k, v) m -> JsMap.get k m = Some v.
Proof.
  induction m as [|[k' v'] m IH]; simpl; intros Hnd Hin; [destruct Hin|].
  inversion Hnd as [|? ? Hnotin Hnd']; subst.
  destruct Hin as [[= -> ->]|Hin].
  - now rewrite String.eqb_refl.
  - destruct (String.eqb_spec k k') as [->|_]; [|auto].
    exfalso. apply Hnotin. unfold JsMap.keys. apply in_map_iff.
    now exists (k', v).
Qed.

Lemma find_first_Some A (p : A -> bool) (l : list A) (x : A) :
  find_first p l = Some x -> In x l /\ p x = true.
Proof.
  induction l as [|y l IH]; simpl; [discriminate|].
  destruct (p y) eqn:E.
  - intros [= ->]. auto.
  - intros H. destruct (IH H). auto.
Qed.

Lemma find_first_None A (p : A -> bool) (l : list A) :
  find_first p l = None <-> (forall x, In x l -> p x = false).
Proof.
  induction l as [|y l IH]; simpl.
  - split; [intros _ x [] | reflexivity].
  - destruct (p y) eqn:E.
    + split; [discriminate|]. intros H. rewrite (H y) in E; [discriminate|now left].
    + rewrite IH. split.
      * intros H x [<-|Hin]; auto.
      * intros H x Hin. apply H. now right.
Qed.

Section SortFacts.
Variable A : Type.
Variable key : A -> Z.
Variable cmp : A -> A -> Z.

Lemma insert_sorted_perm (x : A) (l : list A) :
  Permutation (x :: l) (insert_sorted cmp x l).
Proof.
  induction l as [|y l IH]; simpl; [reflexivity|].
  destruct (cmp x y <=? 0); [reflexivity|].
  rewrite perm_swap. now constructor.
Qed.

Lemma sort_perm (l : list A) : Permutation l (sort cmp l).
Proof.
  induction l as [|x l IH]; simpl; [constructor|].
  rewrite <- insert_sorted_perm. now constructor.
Qed.

Lemma ascending_trans : Relations_1.Transitive (ascending key).
Proof. intros a b c. unfold ascending. lia. Qed.

End SortFacts.


(** ** The invariants hold along every history *)

Lemma drawn_set_fresh V (n : nat) (v : V) (m : JsMap.t V) :
  drawn n m -> drawn (S n) (JsMap.set (uuid n) v m).
Proof.
  intros [Hnd Hk]. split.
  - now apply keys_set_NoDup.
  - intros k Hin. unfold JsMap.keys in Hin. apply in_map_iff in Hin.
    destruct Hin as [[k0 v0] [<- Hin]]. apply In_set in Hin.
    destruct Hin as [[= -> ->]|Hin].
    + exists n. split; [lia | reflexivity].
    + destruct (Hk k0) as [i [Hi ->]].
      * unfold JsMap.keys. apply in_map_iff. now exists (k0, v0).
      * exists i. split; [lia | reflexivity].
Qed.

Lemma drawn_set_present V (n : nat) (k : string) (v v' : V) (m : JsMap.t V) :
  JsMap.get k m = Some v -> drawn n m -> drawn n (JsMap.set k v' m).
Proof.
  intros Hget [Hnd Hk]. split.
  - now apply keys_set_NoDup.
  - intros k1 Hin. unfold JsMap.keys in Hin. apply in_map_iff in Hin.
    destruct Hin as [[k0 v0] [<- Hin]]. apply In_set in Hin. simpl.
    apply Hk. unfold JsMap.keys. apply in_map_iff.
    destruct Hin as [[= -> ->]|Hin].
    + exists (k, v). split; [reflexivity | now apply get_In].
    + now exists (k0, v0).
Qed.

Lemma drawn_S V (n : nat) (m : JsMap.t V) : drawn n m -> drawn (S n) m.
Proof.
  intros [Hnd Hk]. split; [exact Hnd|].
  intros k Hin. destruct (Hk k Hin) as [i [Hi ->]].
  exists i. split; [lia | reflexivity].
Qed.

Lemma drawn_unused V (n : nat) (m : JsMap.t V) :
  (forall i j, uuid i = uuid j -> i = j) ->
  drawn n m -> JsMap.get (uuid n) m = None.
Proof.
  intros Hinj [_ Hk]. apply get_None_keys. intros Hin.
  destruct (Hk _ Hin) as [i [Hi E]]. apply Hinj in E. lia.
Qed.

Lemma stamped_le (n n' : nat) (m : JsMap.t Complaint.t) :
  (n <= n')%nat -> stamped n m -> stamped n' m.
Proof.
  intros Hle H k c Hin. destruct (H k c Hin) as [i [Hi E]].
  exists i. split; [lia | exact E].
Qed.

Lemma stamped_set (n i : nat) (k : string) (c : Complaint.t)
      (m : JsMap.t Complaint.t) :
  (i < n)%nat -> Complaint.updatedAt c = Some (date (clock i)) ->
  stamped n m -> stamped n (JsMap.set k c m).
Proof.
  intros Hi E H k0 c0 Hin. apply In_set in Hin.
  destruct Hin as [[= -> ->]|Hin]; [now exists i | now apply (H k0)].
Qed.

Lemma keyed_set V (id_of : V -> string) (k : string) (v : V) (m : JsMap.t V) :
  id_of v = k -> keyed id_of m -> keyed id_of (JsMap.set k v m).
Proof.
  intros E H k0 v0 Hin. apply In_set in Hin.
  destruct Hin as [[= -> ->]|Hin]; [exact E | now apply H].
Qed.

Lemma keyed_get V (id_of : V -> string) (k : string) (v : V) (m : JsMap.t V) :
  keyed id_of m -> JsMap.get k m = Some v -> id_of v = k.
Proof. intros H Hget. apply H. now apply get_In. Qed.

(** A payload without [id] leaves [id] alone, one without [createdAt]
    leaves [createdAt] alone. *)

Ltac spread_keeps p :=
  let f := fresh "f" in
  let IH := fresh "IH" in
  let H := fresh "H" in
  let x := fresh "x" in
  intros x; revert x;
  induction p as [|f p IH]; intros x; simpl; [reflexivity|];
  intros H; apply orb_false_iff in H; destruct H as [? ?];
  rewrite IH by assumption; now destruct f.

Lemma user_spread_id (p : User.Partial) :
  forall u, existsb User.sets_id p = false ->
            User.id (User.spread u p) = User.id u.
Proof. unfold User.spread. spread_keeps p. Qed.

Lemma complaint_spread_id (p : Complaint.Partial) :
  forall c, existsb Complaint.sets_id p = false ->
            Complaint.id (Complaint.spread c p) = Complaint.id c.
Proof. unfold Complaint.spread. spread_keeps p. Qed.

Lemma meeting_spread_id (p : Meeting.Partial) :
  forall m, existsb Meeting.sets_id p = false ->
            Meeting.id (Meeting.spread m p) = Meeting.id m.
Proof. unfold Meeting.spread. spread_keeps p. Qed.

Lemma scenario_spread_id (p : Scenario.Partial) :
  forall s, existsb Scenario.sets_id p = false ->
            Scenario.id (Scenario.spread s p) = Scenario.id s.
Proof. unfold Scenario.spread. spread_keeps p. Qed.

Lemma user_spread_createdAt (p : User.Partial) :
  forall u, existsb User.sets_createdAt p = false ->
            User.createdAt (User.spread u p) = User.createdAt u.
Proof. unfold User.spread. spread_keeps p. Qed.

Lemma complaint_spread_createdAt (p : Complaint.Partial) :
  forall c, existsb Complaint.sets_createdAt p = false ->
            Complaint.createdAt (Complaint.spread c p) = Complaint.createdAt c.
Proof. unfold Complaint.spread. spread_keeps p. Qed.

Lemma meeting_spread_createdAt (p : Meeting.Partial) :
  forall m, existsb Meeting.sets_createdAt p = false ->
            Meeting.createdAt (Meeting.spread m p) = Meeting.createdAt m.
Proof. unfold Meeting.spread. spread_keeps p. Qed.

Lemma scenario_spread_createdAt (p : Scenario.Partial) :
  forall s, existsb Scenario.sets_createdAt p = false ->
            Scenario.createdAt (Scenario.spread s p) = Scenario.createdAt s.
Proof. unfold Scenario.spread. spread_keeps p. Qed.

(** Each call keeps the store consistent. *)

Lemma call_consistent (c : Call) (w : World) :
  consistent w -> consistent (call c w).
Proof.
  intros [Hu Hc Hm Hs Hn Ht].
  destruct c; unfold call, createUser, updateUser, createComplaint,
    updateComplaint, createMeeting, updateMeeting, createScenario,
    updateScenario, createNotification, markNotificationRead,
    bind, ret, get_storage, put_storage, randomUUID, new_Date; simpl.
  all: try match goal with
           | |- context [JsMap.get ?k ?m] =>
               destruct (JsMap.get k m) eqn:Hget; simpl
           end.
  all: constructor; simpl;
    eauto using drawn_set_fresh, drawn_set_present, drawn_S, stamped_le.
  - apply stamped_set with (i := S (ticks w)); [lia | reflexivity |].
    apply stamped_le with (n := ticks w); [lia | exact Ht].
  - apply stamped_set with (i := ticks w); [lia | reflexivity |].
    apply stamped_le with (n := ticks w); [lia | exact Ht].
Qed.

Lemma call_ids_kept (c : Call) (w : World) :
  call_sets_id c = false -> ids_kept w -> ids_kept (call c w).
Proof.
  intros Hc [Hu Hco Hm Hs Hn].
  destruct c; unfold call, createUser, updateUser, createComplaint,
    updateComplaint, createMeeting, updateMeeting, createScenario,
    updateScenario, createNotification, markNotificationRead,
    bind, ret, get_storage, put_storage, randomUUID, new_Date; simpl in *.
  all: try match goal with
           | |- context [JsMap.get ?k ?m] =>
               destruct (JsMap.get k m) eqn:Hget; simpl
           end.
  all: constructor; simpl; auto.
  all: apply keyed_set; auto.
  - rewrite user_spread_id by exact Hc. eapply keyed_get; eauto.
  - unfold Complaint.assign; simpl.
    rewrite complaint_spread_id by exact Hc. eapply keyed_get; eauto.
  - rewrite meeting_spread_id by exact Hc. eapply keyed_get; eauto.
  - rewrite scenario_spread_id by exact Hc. eapply keyed_get; eauto.
  - change (Notification.id t = id). apply Hn. now apply get_In.
Qed.

Lemma run_consistent (cs : list Call) :
  forall w, consistent w -> consistent (run cs w).
Proof.
  unfold run. induction cs as [|c cs IH]; intros w Hw; simpl; [exact Hw|].
  apply IH. now apply call_consistent.
Qed.

Lemma run_ids_kept (cs : list Call) :
  forall w, forallb (fun c => negb (call_sets_id c)) cs = true ->
            ids_kept w -> ids_kept (run cs w).
Proof.
  unfold run. induction cs as [|c cs IH]; intros w Hcs Hw; simpl; [exact Hw|].
  simpl in Hcs. apply andb_true_iff in Hcs. destruct Hcs as [Hc Hcs].
  apply IH; [exact Hcs|]. apply call_ids_kept; [|exact Hw].
  now apply negb_true_iff.
Qed.

Lemma new_MemStorage_eq :
  new_MemStorage =
  {| storage := set_users [(uuid 0, hrManager)] empty_storage;
     ticks := 1; draws := 1 |}.
Proof. reflexivity. Qed.

Lemma drawn_empty V (n : nat) : drawn n (@JsMap.empty V).
Proof. split; [constructor | intros k []]. Qed.

Lemma new_MemStorage_consistent : consistent new_MemStorage.
Proof.
  rewrite new_MemStorage_eq.
  constructor; simpl; try apply drawn_empty.
  - split.
    + constructor; [intros [] | constructor].
    + intros k [<-|[]]. exists 0%nat. split; [lia | reflexivity].
  - intros k c [].
Qed.

Lemma new_MemStorage_ids_kept : ids_kept new_MemStorage.
Proof.
  rewrite new_MemStorage_eq.
  constructor; simpl; intros k v Hin; simpl in Hin; try (now destruct Hin).
  destruct Hin as [[= <- <-]|[]]. reflexivity.
Qed.

Lemma clock_le (i j : nat) :
  (forall n, clock n <= clock (S n)) -> (i <= j)%nat -> clock i <= clock j.
Proof.
  intros Hmono. induction 1 as [|j Hle IH]; [lia|].
  specialize (Hmono j). lia.
Qed.


(** What a handler does to the world is a history of calls; only
    [PATCH /api/complaints/:id] can hand the store a payload with [id]. *)
Lemma handlers_are_histories (w : World) :
  (forall body, exists cs,
      forallb (fun c => negb (call_sets_id c)) cs = true /\
      snd (post_complaints body w) = run cs w) /\
  (forall body, exists cs,
      forallb (fun c => negb (call_sets_id c)) cs = true /\
      snd (post_users body w) = run cs w) /\
  (forall body, exists cs,
      forallb (fun c => negb (call_sets_id c)) cs = true /\
      snd (post_auth_login body w) = run cs w) /\
  (forall body, exists cs,
      forallb (fun c => negb (call_sets_id c)) cs = true /\
      snd (post_auth_register body w) = run cs w) /\
  (forall id updates,
      snd (patch_complaint id updates w) = run [UpdateComplaint id updates] w).
Proof.
  split; [|split; [|split; [|split]]].
  - intros body. unfold post_complaints.
    destruct (insertComplaintSchema_parse body) as [data|];
      [|exists []; split; reflexivity].
    destruct (analyzeComplaint (InsertComplaint.title data)
                (InsertComplaint.description data)) as [analysis|] eqn:Hai.
    + exists [CreateComplaint data;
              UpdateComplaint (uuid (draws w)) (analysis_updates analysis)].
      split; [reflexivity|].
      unfold run, call, createComplaint, updateComplaint, bind, ret,
        get_storage, put_storage, randomUUID, new_Date. simpl.
      rewrite Hai. simpl. rewrite get_set_same. reflexivity.
    + exists [CreateComplaint data]. split; [reflexivity|].
      unfold run, call, createComplaint, bind, ret, get_storage,
        put_storage, randomUUID, new_Date. simpl.
      rewrite Hai. reflexivity.
  - intros body. unfold post_users.
    destruct (insertUserSchema_parse body) as [data|];
      [|exists []; split; reflexivity].
    exists [CreateUser data]. split; reflexivity.
  - intros body. unfold post_auth_login.
    destruct (falsy _ || falsy _); [exists []; split; reflexivity|].
    unfold getUsers, bind, ret, get_storage. simpl.
    destruct (find_first _ _) as [user|]; [|exists []; split; reflexivity].
    destruct (User.isActive user); simpl; [|exists []; split; reflexivity].
    exists [ReadClock;
            UpdateUser (User.id user) [User.F_lastLogin (Some (date (clock (ticks w))))]].
    split; [reflexivity|].
    unfold run, call, updateUser, new_Date, bind, ret, get_storage,
      put_storage. simpl.
    destruct (JsMap.get _ _); reflexivity.
  - intros body. unfold post_auth_register.
    destruct (insertUserSchema_parse body) as [data|];
      [|exists []; split; reflexivity].
    unfold getUsers, bind, ret, get_storage. simpl.
    destruct (find_first _ _); [exists []; split; reflexivity|].
    exists [CreateUser data]. split; reflexivity.
  - intros id updates.
    unfold patch_complaint, run, call, updateComplaint, bind, ret,
      get_storage, put_storage, new_Date. simpl.
    destruct (JsMap.get _ _); reflexivity.
Qed.

(** In a store built by calls that never overwrite an [id], the user a
    login finds is stored under its own identifier. *)
Lemma found_user_is_stored (cs : list Call) (p : User.t -> bool) (user : User.t) :
  forallb (fun c => negb (call_sets_id c)) cs = true ->
  let w := run cs new_MemStorage in
  find_first p (JsMap.values (users (storage w))) = Some user ->
  JsMap.get (User.id user) (users (storage w)) = Some user.
Proof.
  intros Hcs w Hfind.
  assert (Hkept : ids_kept w)
    by (apply run_ids_kept; [exact Hcs | exact new_MemStorage_ids_kept]).
  assert (Hcons : consistent w)
    by (apply run_consistent; exact new_MemStorage_consistent).
  apply find_first_Some in Hfind. destruct Hfind as [Hin _].
  unfold JsMap.values in Hin. apply in_map_iff in Hin.
  destruct Hin as [[k u] [E Hin]]. simpl in E. subst u.
  rewrite (users_keyed Hkept _ _ Hin).
  apply In_get; [|exact Hin]. apply (users_drawn Hcons).
Qed.

(** ** More facts about [JsMap], [find_first], [filter] and [sort] *)

Lemma set_same V (k : string) (v : V) (m : JsMap.t V) :
  JsMap.get k m = Some v -> JsMap.set k v m = m.
Proof.
  induction m as [|[k' v'] m IH]; simpl; [discriminate|].
  destruct (String.eqb_spec k k') as [->|Hne].
  - now intros [= ->].
  - intros H. now rewrite IH.
Qed.

(** Setting at a key that is absent appends. *)
Lemma set_absent V (k : string) (v : V) (m : JsMap.t V) :
  JsMap.get k m = None -> JsMap.set k v m = (m ++ [(k, v)])%list.
Proof.
  induction m as [|[k' v'] m IH]; simpl; [reflexivity|].
  destruct (String.eqb k k'); [discriminate|].
  intros H. now rewrite IH.
Qed.

Lemma set_present V (k k' : string) (v : V) (m : JsMap.t V) :
  present k m -> present k (JsMap.set k' v m).
Proof.
  unfold present. intros H.
  destruct (String.eqb_spec k' k) as [->|Hne].
  - now rewrite get_set_same.
  - now rewrite get_set_other.
Qed.

Lemma In_values_set V (k : string) (v : V) (m : JsMap.t V) :
  In v (JsMap.values (JsMap.set k v m)).
Proof.
  unfold JsMap.values. induction m as [|[k' v'] m IH]; simpl.
  - now left.
  - destruct (String.eqb k k'); simpl; [now left | now right].
Qed.

Lemma In_values_set_inv V (k : string) (v x : V) (m : JsMap.t V) :
  In x (JsMap.values (JsMap.set k v m)) -> x = v \/ In x (JsMap.values m).
Proof.
  unfold JsMap.values. intros H. apply in_map_iff in H.
  destruct H as [[k0 v0] [E Hin]]. simpl in E. subst v0.
  apply In_set in Hin. destruct Hin as [[= -> ->]|Hin]; [now left|].
  right. apply in_map_iff. now exists (k0, x).
Qed.

Lemma length_set_present V (k : string) (v v' : V) (m : JsMap.t V) :
  JsMap.get k m = Some v -> length (JsMap.set k v' m) = length m.
Proof.
  induction m as [|[k' v0] m IH]; simpl; [discriminate|].
  destruct (String.eqb k k'); simpl; [reflexivity|].
  intros H. now rewrite IH.
Qed.

(** The only element that satisfies [p] is the one [find_first] finds. *)
Lemma find_first_unique A (p : A -> bool) (l : list A) (x : A) :
  In x l -> p x = true -> (forall y, In y l -> p y = true -> y = x) ->
  find_first p l = Some x.
Proof.
  induction l as [|y l IH]; simpl; intros Hin Hp Huniq; [destruct Hin|].
  destruct (p y) eqn:Hy.
  - f_equal. apply Huniq; [now left | exact Hy].
  - destruct Hin as [->|Hin]; [congruence|].
    apply IH; auto.
Qed.

(** Replacing the entry that [find_first] finds, by a value that [p] holds
    of as well, makes [find_first] find the new value. *)
Lemma find_first_set V (id_of : V -> string) (p : V -> bool)
      (v v' : V) (m : JsMap.t V) :
  NoDup (JsMap.keys m) -> keyed id_of m ->
  find_first p (JsMap.values m) = Some v -> p v' = true ->
  find_first p (JsMap.values (JsMap.set (id_of v) v' m)) = Some v'.
Proof.
  unfold JsMap.values.
  induction m as [|[k0 v0] m IH]; simpl; intros Hnd Hkeyed Hfind Hp;
    [discriminate|].
  inversion Hnd as [|? ? Hnotin Hnd']; subst.
  assert (Hk0 : id_of v0 = k0) by (apply Hkeyed; now left).
  assert (Hkeyed' : keyed id_of m)
    by (intros k x Hin; apply Hkeyed; now right).
  destruct (p v0) eqn:Hp0.
  - injection Hfind as ->. rewrite Hk0, String.eqb_refl. simpl.
    now rewrite Hp.
  - destruct (String.eqb_spec (id_of v) k0) as [E|Hne].
    + exfalso. apply find_first_Some in Hfind. destruct Hfind as [Hin _].
      apply in_map_iff in Hin. destruct Hin as [[k1 v1] [E1 Hin]].
      simpl in E1. subst v1.
      apply Hnotin. unfold JsMap.keys. apply in_map_iff.
      exists (k1, v). split; [|exact Hin]. simpl.
      rewrite <- E. symmetry. now apply Hkeyed'.
    + simpl. rewrite Hp0. now apply IH.
Qed.

Lemma filter_length_or A (p q : A -> bool) (l : list A) :
  (forall x, p x = true -> q x = false) ->
  length (filter (fun x => p x || q x) l)
  = (length (filter p l) + length (filter q l))%nat.
Proof.
  intros Hdisj. induction l as [|x l IH]; simpl; [reflexivity|].
  destruct (p x) eqn:Hp; simpl.
  - rewrite (Hdisj x Hp). simpl. now rewrite IH.
  - destruct (q x); simpl; rewrite IH; lia.
Qed.

Lemma filter_length_le A (p : A -> bool) (l : list A) :
  (length (filter p l) <= length l)%nat.
Proof.
  induction l as [|x l IH]; simpl; [lia|].
  destruct (p x); simpl; lia.
Qed.

Lemma filter_length_perm A (p : A -> bool) (l l' : list A) :
  Permutation l l' -> length (filter p l) = length (filter p l').
Proof.
  induction 1 as [|x l l' _ IH|x y l|l l' l'' _ IH1 _ IH2]; simpl.
  - reflexivity.
  - destruct (p x); simpl; now rewrite IH.
  - destruct (p x), (p y); reflexivity.
  - now rewrite IH1.
Qed.

(** A spread of two payloads one after the other is the spread of their
    concatenation. *)
Lemma user_spread_app (p q : User.Partial) (u : User.t) :
  User.spread (User.spread u p) q = User.spread u (p ++ q)%list.
Proof. unfold User.spread. now rewrite fold_left_app. Qed.

Lemma meeting_spread_app (p q : Meeting.Partial) (m : Meeting.t) :
  Meeting.spread (Meeting.spread m p) q = Meeting.spread m (p ++ q)%list.
Proof. unfold Meeting.spread. now rewrite fold_left_app. Qed.

Lemma scenario_spread_app (p q : Scenario.Partial) (s : Scenario.t) :
  Scenario.spread (Scenario.spread s p) q = Scenario.spread s (p ++ q)%list.
Proof. unfold Scenario.spread. now rewrite fold_left_app. Qed.

Lemma complaint_spread_app (p q : Complaint.Partial) (c : Complaint.t) :
  Complaint.spread (Complaint.spread c p) q = Complaint.spread c (p ++ q)%list.
Proof. unfold Complaint.spread. now rewrite fold_left_app. Qed.

Lemma same_but_updatedAt_assign (f : Complaint.Field) (c c' : Complaint.t) :
  same_but_updatedAt c c' ->
  same_but_updatedAt (Complaint.assign f c) (Complaint.assign f c').
Proof.
  intros H k Hk. specialize (H k Hk).
  destruct k, f; simpl in *; solve [exact H | reflexivity | now elim Hk].
Qed.

Lemma same_but_updatedAt_spread (p : Complaint.Partial) :
  forall c c', same_but_updatedAt c c' ->
               same_but_updatedAt (Complaint.spread c p) (Complaint.spread c' p).
Proof.
  unfold Complaint.spread.
  induction p as [|f p IH]; intros c c' H; simpl; [exact H|].
  apply IH. now apply same_but_updatedAt_assign.
Qed.

Lemma same_but_updatedAt_stamp (t : option Date) (c : Complaint.t) :
  same_but_updatedAt (Complaint.assign (Complaint.F_updatedAt t) c) c.
Proof. intros k Hk. destruct k; simpl; solve [reflexivity | now elim Hk]. Qed.

Lemma same_but_updatedAt_trans (a b c : Complaint.t) :
  same_but_updatedAt a b -> same_but_updatedAt b c -> same_but_updatedAt a c.
Proof.
  intros Hab Hbc k Hk. specialize (Hab k Hk). specialize (Hbc k Hk).
  destruct k; simpl in *; congruence.
Qed.

Lemma same_but_updatedAt_sym (a b : Complaint.t) :
  same_but_updatedAt a b -> same_but_updatedAt b a.
Proof.
  intros Hab k Hk. specialize (Hab k Hk). destruct k; simpl in *; congruence.
Qed.

Lemma set_set V (k : string) (v v' : V) (m : JsMap.t V) :
  JsMap.set k v' (JsMap.set k v m) = JsMap.set k v' m.
Proof.
  induction m as [|[k0 v0] m IH]; simpl.
  - now rewrite String.eqb_refl.
  - destruct (String.eqb k k0) eqn:E; simpl.
    + now rewrite String.eqb_refl.
    + now rewrite E, IH.
Qed.

Lemma length_set_ge V (k : string) (v : V) (m : JsMap.t V) :
  (length m <= length (JsMap.set k v m))%nat.
Proof.
  induction m as [|[k0 v0] m IH]; simpl; [lia|].
  destruct (String.eqb k k0); simpl; lia.
Qed.

Lemma grown_set V (k : string) (v : V) (m : JsMap.t V) :
  (forall k0, present k0 m -> present k0 (JsMap.set k v m))
  /\ (length m <= length (JsMap.set k v m))%nat.
Proof.
  split; [intros k0; apply set_present | apply length_set_ge].
Qed.

Lemma grown_same V (m : JsMap.t V) :
  (forall k0, present k0 m -> present k0 m) /\ (length m <= length m)%nat.
Proof. split; [auto | lia]. Qed.

Lemma grown_refl (w : World) : grown w w.
Proof. constructor; apply grown_same. Qed.

Lemma grown_trans (a b c : World) : grown a b -> grown b c -> grown a c.
Proof.
  intros [[U1 U2] [C1 C2] [M1 M2] [S1 S2] [N1 N2]]
         [[U1' U2'] [C1' C2'] [M1' M2'] [S1' S2'] [N1' N2']].
  constructor; (split; [auto | lia]).
Qed.

Lemma call_grown (c : Call) (w : World) : grown w (call c w).
Proof.
  destruct c; unfold call, createUser, updateUser, createComplaint,
    updateComplaint, createMeeting, updateMeeting, createScenario,
    updateScenario, createNotification, markNotificationRead,
    bind, ret, get_storage, put_storage, randomUUID, new_Date; simpl.
  all: try match goal with
           | |- context [JsMap.get ?k ?m] =>
               destruct (JsMap.get k m) eqn:Hget; simpl
           end.
  all: constructor; simpl; solve [apply grown_set | apply grown_same].
Qed.

Lemma values_app V (m m' : JsMap.t V) :
  JsMap.values (m ++ m')%list = (JsMap.values m ++ JsMap.values m')%list.
Proof. unfold JsMap.values. apply map_app. Qed.

Lemma values_length V (m : JsMap.t V) : length (JsMap.values m) = length m.
Proof. unfold JsMap.values. apply length_map. Qed.

Lemma sort_length A (cmp : A -> A -> Z) (l : list A) :
  length (sort cmp l) = length l.
Proof. symmetry. apply Permutation_length, sort_perm. Qed.

Lemma mark_read_twice (n : Notification.t) :
  Notification.mark_read (Notification.mark_read n) = Notification.mark_read n.
Proof. reflexivity. Qed.

(** The three statuses the statistics count never overlap. *)
Lemma statuses_le (l : list Complaint.t) :
  (length (filter is_open l) + length (filter is_in_progress l)
   + length (filter is_resolved l) <= length l)%nat.
Proof.
  induction l as [|c l IH]; simpl; [lia|].
  unfold is_open, is_in_progress, is_resolved in *.
  destruct (String.eqb_spec (Complaint.status c) "open") as [E|_];
    destruct (String.eqb_spec (Complaint.status c) "in_progress") as [E'|_];
    destruct (String.eqb_spec (Complaint.status c) "resolved") as [E''|_];
    simpl; try lia; congruence.
Qed.

(** A filter whose callback reads the clock [n] times for each element and
    writes nothing: the store is untouched, the clock has been read [n]
    times an element, and what is kept are elements the callback accepts. *)
Lemma filterM_reads A (p : A -> M bool) (q : A -> bool) (n : nat) (l : list A) :
  (forall x w, storage (snd (p x w)) = storage w /\
               draws (snd (p x w)) = draws w /\
               ticks (snd (p x w)) = (ticks w + n)%nat /\
               (fst (p x w) = true -> q x = true)) ->
  forall w,
    storage (snd (filterM p l w)) = storage w /\
    draws (snd (filterM p l w)) = draws w /\
    ticks (snd (filterM p l w)) = (ticks w + n * length l)%nat /\
    (length (fst (filterM p l w)) <= length (filter q l))%nat.
Proof.
  intros Hp. induction l as [|x l IH]; intros w; simpl.
  - repeat split; simpl; lia.
  - unfold bind. destruct (p x w) as [keep w1] eqn:E1.
    destruct (Hp x w) as (Hs & Hd & Ht & Hq). rewrite E1 in Hs, Hd, Ht, Hq.
    simpl in Hs, Hd, Ht, Hq.
    destruct (filterM p l w1) as [rest w2] eqn:E2.
    destruct (IH w1) as (Hs' & Hd' & Ht' & Hl'). rewrite E2 in Hs', Hd', Ht', Hl'.
    simpl in Hs', Hd', Ht', Hl'. unfold ret. simpl.
    repeat split; try congruence; try lia.
    destruct keep; simpl.
    + rewrite (Hq eq_refl). simpl. lia.
    + destruct (q x); simpl; lia.
Qed.

(** [sort] with a comparator that is a difference of keys on the elements
    of the list. *)
Lemma insert_sorted_sorted_on A (key : A -> Z) (cmp : A -> A -> Z)
      (x : A) (l : list A) :
  (forall y, In y l -> cmp x y = key x - key y) ->
  Sorted (ascending key) l -> Sorted (ascending key) (insert_sorted cmp x l).
Proof.
  intros Hcmp Hs. induction Hs as [|y l Hs IH Hhd]; simpl.
  - repeat constructor.
  - rewrite (Hcmp y) by now left.
    destruct (Z.leb_spec (key x - key y) 0) as [Hle|Hgt].
    + constructor; [now constructor|]. constructor. unfold ascending. lia.
    + constructor; [apply IH; intros z Hz; apply Hcmp; now right|].
      destruct Hhd as [|z l' Hyz]; simpl.
      * constructor. unfold ascending. lia.
      * rewrite (Hcmp z) by (right; now left).
        destruct (key x - key z <=? 0); constructor;
          unfold ascending in *; lia.
Qed.

Lemma sort_In A (cmp : A -> A -> Z) (l : list A) (x : A) :
  In x (sort cmp l) <-> In x l.
Proof.
  split; intros H.
  - eapply Permutation_in; [apply Permutation_sym, sort_perm | exact H].
  - eapply Permutation_in; [apply sort_perm | exact H].
Qed.

Lemma sort_strongly_sorted_on A (key : A -> Z) (cmp : A -> A -> Z) (l : list A) :
  (forall a b, In a l -> In b l -> cmp a b = key a - key b) ->
  StronglySorted (ascending key) (sort cmp l).
Proof.
  intros Hcmp. apply Sorted_StronglySorted; [apply ascending_trans|].
  induction l as [|x l IH]; simpl; [constructor|].
  apply insert_sorted_sorted_on.
  - intros y Hy. apply Hcmp; [now left | right; now apply sort_In in Hy].
  - apply IH. intros a b Ha Hb. apply Hcmp; now right.
Qed.

Lemma StronglySorted_weaken_on A (R R' : A -> A -> Prop) (l : list A) :
  (forall a b, In a l -> In b l -> R a b -> R' a b) ->
  StronglySorted R l -> StronglySorted R' l.
Proof.
  intros Hsub Hs. induction Hs as [|a l Hs IH Hall]; constructor.
  - apply IH. intros x y Hx Hy. apply Hsub; now right.
  - rewrite Forall_forall in *. intros b Hb.
    apply Hsub; [now left | now right | now apply Hall].
Qed.

Lemma insert_sorted_ties_on A (key : A -> Z) (cmp : A -> A -> Z)
      (p : A -> bool) (x : A) (l : list A) :
  (forall y, In y l -> cmp x y = key x - key y) ->
  (forall y, In y l -> p x = true -> p y = true -> key x = key y) ->
  filter p (insert_sorted cmp x l) = filter p (x :: l).
Proof.
  intros Hcmp Hp. induction l as [|y l IH]; simpl; [reflexivity|].
  rewrite (Hcmp y) by now left.
  destruct (Z.leb_spec (key x - key y) 0) as [Hle|Hgt]; [reflexivity|].
  simpl. rewrite IH; simpl.
  - destruct (p x) eqn:Ex; destruct (p y) eqn:Ey; try reflexivity.
    assert (key x = key y) by (apply Hp; [now left | reflexivity | exact Ey]).
    lia.
  - intros z Hz. apply Hcmp. now right.
  - intros z Hz. apply Hp. now right.
Qed.

Lemma sort_ties_on A (key : A -> Z) (cmp : A -> A -> Z) (t : Z) (l : list A) :
  (forall a b, In a l -> In b l -> cmp a b = key a - key b) ->
  filter (fun a => key a =? t) (sort cmp l) = filter (fun a => key a =? t) l.
Proof.
  intros Hcmp. induction l as [|x l IH]; simpl; [reflexivity|].
  rewrite insert_sorted_ties_on with (key := key).
  - simpl. rewrite IH; [reflexivity|].
    intros a b Ha Hb. apply Hcmp; now right.
  - intros y Hy. apply Hcmp; [now left | right; now apply sort_In in Hy].
  - intros y _ Hx Hy. apply Z.eqb_eq in Hx, Hy. congruence.
Qed.

Lemma sort_sorted_id_on A (key : A -> Z) (cmp : A -> A -> Z) (l : list A) :
  (forall a b, In a l -> In b l -> cmp a b = key a - key b) ->
  StronglySorted (ascending key) l -> sort cmp l = l.
Proof.
  intros Hcmp Hs. induction Hs as [|x l Hs IH Hall]; simpl; [reflexivity|].
  rewrite IH by (intros a b Ha Hb; apply Hcmp; now right).
  destruct l as [|y l]; simpl; [reflexivity|].
  rewrite Hcmp by (simpl; auto).
  inversion Hall as [|? ? Hxy _]; subst. unfold ascending in Hxy.
  destruct (Z.leb_spec (key x - key y) 0); [reflexivity | lia].
Qed.

(** A date with a time value compares by it. *)
Lemma getTime_time_value (d : Date) :
  d <> Invalid_Date -> getTime d = Some (time_value d).
Proof. destruct d; [reflexivity | congruence]. Qed.

Lemma Date_of_valid (d : option Date) :
  d <> Some Invalid_Date -> Date_of d <> Invalid_Date.
Proof. destruct d as [[t|]|]; simpl; congruence. Qed.

Lemma of_user_without_password (u : User.t) :
  without_password (UserWithoutPassword.of_user u) u.
Proof. repeat split. Qed.

(** ** The claims *)




(** C4. An update on an identifier that is not in the store answers "not
    found" and raises nothing: [updateComplaint] (and likewise
    [updateUser], [updateMeeting], [updateScenario]) returns [undefined],
    [PATCH /api/complaints/:id] answers 404, and the store, as the whole
    world, is left as it was. *)
Theorem update_absent_not_found (w : World) (id : string) :
  (forall updates,
      JsMap.get id (complaints (storage w)) = None ->
      updateComplaint id updates w = (None, w) /\
      patch_complaint id updates w = (Message 404 "Complaint not found", w)) /\
  (forall updates,
      JsMap.get id (users (storage w)) = None ->
      updateUser id updates w = (None, w)) /\
  (forall updates,
      JsMap.get id (meetings (storage w)) = None ->
      updateMeeting id updates w = (None, w)) /\
  (forall updates,
      JsMap.get id (scenarios (storage w)) = None ->
      updateScenario id updates w = (None, w)).
Proof.
  unfold patch_complaint, updateComplaint, updateUser, updateMeeting,
    updateScenario, bind, get_storage, ret; simpl.
  split; [|split; [|split]]; intros updates Habsent; rewrite Habsent;
    [split|..]; reflexivity.
Qed.

(** C5. For a valid complaint-creation request, when the AI annotation
    call fails, [POST /api/complaints] still answers 201 with the created
    complaint, the complaint in the store is that very complaint with
    [aiAnalysis], [aiRecommendations], [sentimentScore] and
    [confidenceScore] null, and the handler does not fall into its 400
    branch. *)
Theorem ai_failure_is_tolerated
        (w : World) (body : Body) (complaintData : InsertComplaint.t) :
  insertComplaintSchema_parse body = Some complaintData ->
  analyzeComplaint (InsertComplaint.title complaintData)
    (InsertComplaint.description complaintData) = None ->
  let complaint := fst (createComplaint complaintData w) in
  let w' := snd (post_complaints body w) in
  fst (post_complaints body w) = Json 201 complaint /\
  w' = snd (createComplaint complaintData w) /\
  getComplaint (Complaint.id complaint) w' = (Some complaint, w') /\
  Complaint.aiAnalysis complaint = None /\
  Complaint.aiRecommendations complaint = None /\
  Complaint.sentimentScore complaint = None /\
  Complaint.confidenceScore complaint = None.
Proof.
  intros Hparse Hfail.
  unfold post_complaints, getComplaint, createComplaint, bind, ret,
    get_storage, put_storage, randomUUID, new_Date.
  rewrite Hparse. simpl. rewrite Hfail. simpl.
  rewrite get_set_same. repeat split.
Qed.

(** C6. A registration request that does not pass the schema is answered
    400 and changes nothing. For one that passes: when some user of the
    store has its phone or its email, [POST /api/auth/register] answers 400
    and nothing changes, no user is created; when no user has its phone or
    its email, a user is created from the request, stored under a new
    identifier, and the answer is 201 with that user, every property of it
    but the password. *)
Theorem register_rejects_duplicates (w : World) (body : Body) :
  (insertUserSchema_parse body = None ->
   post_auth_register body w = (Message 400 "Registration failed", w)) /\
  (forall userData,
      insertUserSchema_parse body = Some userData ->
      ((exists u, In u (JsMap.values (users (storage w))) /\
                  (User.phone u = InsertUser.phone userData \/
                   User.email u = InsertUser.email userData)) ->
       status_of (fst (post_auth_register body w)) = 400 /\
       snd (post_auth_register body w) = w) /\
      ((forall u, In u (JsMap.values (users (storage w))) ->
                  User.phone u <> InsertUser.phone userData /\
                  User.email u <> InsertUser.email userData) ->
       exists user stripped,
         let w' := snd (post_auth_register body w) in
         fst (post_auth_register body w)
         = Json 201 {| AuthReply.user := stripped;
                       AuthReply.message := "Registration successful" |} /\
         without_password stripped user /\
         users (storage w')
         = JsMap.set (uuid (draws w)) user (users (storage w)) /\
         getUser (User.id user) w' = (Some user, w') /\
         In user (fst (getUsers w')) /\
         User.id user = uuid (draws w) /\
         User.username user = InsertUser.username userData /\
         User.password user = InsertUser.password userData /\
         User.email user = InsertUser.email userData /\
         User.phone user = InsertUser.phone userData /\
         User.name user = InsertUser.name userData /\
         User.role user = str_or (InsertUser.role userData) "employee" /\
         User.department user = str_or_null (InsertUser.department userData) /\
         User.isActive user = bool_nullish (InsertUser.isActive userData) true /\
         User.lastLogin user = None /\
         User.createdAt user = Some (date (clock (ticks w))))).
Proof.
  unfold post_auth_register, getUser, getUsers, createUser, bind, ret,
    get_storage, put_storage, randomUUID, new_Date.
  split.
  - intros Hparse. now rewrite Hparse.
  - intros userData Hparse. rewrite Hparse. simpl.
    split.
    + intros [u [Hin Hdup]].
      destruct (find_first _ _) as [existing|] eqn:Hfind.
      * split; reflexivity.
      * exfalso. rewrite find_first_None in Hfind.
        specialize (Hfind u Hin). apply orb_false_iff in Hfind.
        destruct Hfind as [Hp He].
        destruct Hdup as [E|E]; rewrite E, String.eqb_refl in *; discriminate.
    + intros Hnone.
      destruct (find_first _ _) as [existing|] eqn:Hfind.
      * exfalso. apply find_first_Some in Hfind. destruct Hfind as [Hin Hp].
        destruct (Hnone existing Hin) as [Hph Hem].
        apply orb_true_iff in Hp. destruct Hp as [E|E];
          apply String.eqb_eq in E; congruence.
      * simpl. do 2 eexists. split; [reflexivity|].
        split; [apply of_user_without_password|].
        split; [reflexivity|].
        rewrite get_set_same. split; [reflexivity|].
        split; [apply In_values_set|]. repeat split.
Qed.

(** C7, as the code has it. A login request whose phone or password is
    missing or empty is answered 400. With both present, the handler looks
    for the first stored user that has that phone and that password, and
    answers 401 when there is none (so when no stored user has that phone,
    and when every user with that phone has another password) or when the
    user found has [isActive] false. Otherwise it answers 200 with the user
    found, every property of it but the password, as it was before the
    login; and, that user being stored under its own identifier, it writes
    the time of the login into the stored user's [lastLogin]. *)
Theorem login_outcomes (w : World) :
  (forall body,
      falsy (LoginBody.phone body) || falsy (LoginBody.password body) = true ->
      post_auth_login body w
      = (Message 400 "Phone number and password are required", w)) /\
  (forall phone password,
      phone <> "" -> password <> "" ->
      let body := {| LoginBody.phone := Some phone;
                     LoginBody.password := Some password |} in
      let unauthorized :=
        (Message 401 "Invalid phone number or password" : Reply AuthReply.t, w) in
      ((forall u, In u (JsMap.values (users (storage w))) ->
                  User.phone u <> phone) ->
       post_auth_login body w = unauthorized) /\
      ((forall u, In u (JsMap.values (users (storage w))) ->
                  User.phone u = phone -> User.password u <> password) ->
       post_auth_login body w = unauthorized) /\
      (forall user,
          find_first (fun u => String.eqb (User.phone u) phone
                               && String.eqb (User.password u) password)
            (JsMap.values (users (storage w))) = Some user ->
          (User.isActive user = false ->
           post_auth_login body w = unauthorized) /\
          (User.isActive user = true ->
           exists stripped,
             fst (post_auth_login body w)
             = Json 200 {| AuthReply.user := stripped;
                           AuthReply.message := "Login successful" |} /\
             without_password stripped user) /\
          (User.isActive user = true ->
           JsMap.get (User.id user) (users (storage w)) = Some user ->
           let w' := snd (post_auth_login body w) in
           getUser (User.id user) w'
           = (Some (User.assign (User.F_lastLogin (Some (date (clock (ticks w))))) user),
              w')))).
Proof.
  split.
  - intros body Hfalsy. unfold post_auth_login. now rewrite Hfalsy.
  - intros phone password Hphone Hpassword body unauthorized.
    assert (Hguard : falsy (LoginBody.phone body)
                     || falsy (LoginBody.password body) = false).
    { simpl. apply String.eqb_neq in Hphone, Hpassword.
      now rewrite Hphone, Hpassword. }
    assert (Hnone :
              (forall u, In u (JsMap.values (users (storage w))) ->
                         User.phone u = phone -> User.password u <> password) ->
              post_auth_login body w = unauthorized).
    { intros Hno. unfold post_auth_login. rewrite Hguard.
      unfold getUsers, get_storage, bind, ret. simpl.
      replace (find_first _ _) with (@None User.t); [reflexivity|].
      symmetry. apply find_first_None. intros u Hin.
      destruct (String.eqb_spec (User.phone u) phone) as [E|_]; [|reflexivity].
      simpl. apply String.eqb_neq. now apply Hno. }
    split; [|split].
    + intros Hunknown. apply Hnone. intros u Hin E.
      now elim (Hunknown u Hin).
    + exact Hnone.
    + intros user Hfind. split; [|split].
      * intros Hinactive. unfold post_auth_login. rewrite Hguard.
        unfold getUsers, get_storage, bind, ret. simpl.
        rewrite Hfind, Hinactive. reflexivity.
      * intros Hactive.
        exists (UserWithoutPassword.of_user user).
        split; [|apply of_user_without_password].
        unfold post_auth_login. rewrite Hguard.
        unfold getUsers, updateUser, new_Date, get_storage, put_storage,
          bind, ret. simpl.
        rewrite Hfind, Hactive. simpl.
        destruct (JsMap.get (User.id user) (users (storage w))); reflexivity.
      * intros Hactive Hstored.
        unfold post_auth_login. rewrite Hguard.
        unfold getUser, getUsers, updateUser, new_Date, get_storage,
          put_storage, bind, ret. simpl.
        rewrite Hfind, Hactive. simpl. rewrite Hstored. simpl.
        rewrite get_set_same. reflexivity.
Qed.


(** C9. A freshly constructed [MemStorage] holds exactly one user, the HR
    manager Sarah Johnson (username "sarah.johnson", phone "+1234567890",
    password "password123" in the clear): listing the users of a fresh
    store gives a one-element array, and a registration with that phone
    against a fresh store is refused with 400. *)
Theorem fresh_store_has_default_user :
  (exists u,
      getUsers new_MemStorage = ([u], new_MemStorage) /\
      User.role u = "hr_manager" /\
      User.name u = "Sarah Johnson" /\
      User.username u = "sarah.johnson" /\
      User.phone u = "+1234567890" /\
      User.password u = "password123") /\
  (forall body userData,
      insertUserSchema_parse body = Some userData ->
      InsertUser.phone userData = "+1234567890" ->
      post_auth_register body new_MemStorage =
      (Message 400 "Phone number already registered", new_MemStorage)).
Proof.
  split.
  - exists hrManager. repeat split; reflexivity.
  - intros body userData Hparse Hphone.
    unfold post_auth_register. rewrite Hparse.
    rewrite new_MemStorage_eq.
    unfold bind, getUsers, get_storage, ret; simpl.
    rewrite Hphone. reflexivity.
Qed.

(** C10. The 201 body of [POST /api/complaints] is the complaint as
    [createComplaint] returned it, whatever the AI call does: its AI fields
    are null and its priority is the one set at creation. When the AI call
    succeeds, the annotation is in the stored complaint, which a later
    [getComplaint] returns, and not in the response. *)
Theorem response_is_creation_snapshot
        (w : World) (body : Body) (complaintData : InsertComplaint.t) :
  insertComplaintSchema_parse body = Some complaintData ->
  let complaint := fst (createComplaint complaintData w) in
  let w' := snd (post_complaints body w) in
  fst (post_complaints body w) = Json 201 complaint /\
  Complaint.aiAnalysis complaint = None /\
  Complaint.aiRecommendations complaint = None /\
  Complaint.sentimentScore complaint = None /\
  Complaint.confidenceScore complaint = None /\
  Complaint.category complaint = InsertComplaint.category complaintData /\
  Complaint.priority complaint =
    str_or (InsertComplaint.priority complaintData) "medium" /\
  forall analysis,
    analyzeComplaint (InsertComplaint.title complaintData)
      (InsertComplaint.description complaintData) = Some analysis ->
    exists stored,
      getComplaint (Complaint.id complaint) w' = (Some stored, w') /\
      Complaint.category stored = Some (Analysis.category analysis) /\
      Complaint.priority stored = Analysis.priority analysis /\
      Complaint.aiAnalysis stored = Some (Analysis.summary analysis) /\
      Complaint.aiRecommendations stored =
        Some (JSON_stringify (Analysis.recommendations analysis)) /\
      Complaint.sentimentScore stored = Some (Analysis.sentiment analysis) /\
      Complaint.confidenceScore stored = Some (Analysis.confidence analysis).
Proof.
  intros Hparse.
  unfold post_complaints, getComplaint, createComplaint, updateComplaint,
    bind, ret, get_storage, put_storage, randomUUID, new_Date.
  rewrite Hparse. simpl.
  split.
  { destruct (analyzeComplaint _ _); simpl; [|reflexivity].
    now rewrite get_set_same. }
  do 6 (split; [reflexivity|]).
  intros analysis Hok. rewrite Hok. simpl.
  rewrite get_set_same. simpl. rewrite get_set_same.
  eexists. split; [reflexivity|]. repeat split.
Qed.

(** ** Further properties of the store and of the handlers *)



(** X3. No call of the store deletes anything: along every history each
    key in use stays in use and no collection gets shorter. *)
Theorem nothing_is_deleted (cs : list Call) (w : World) : grown w (run cs w).
Proof.
  unfold run. revert w.
  induction cs as [|c cs IH]; intros w; simpl; [apply grown_refl|].
  eapply grown_trans; [apply call_grown | apply IH].
Qed.

(** X4. An update with an empty payload: of a user, a meeting or a
    scenario in the store it returns the entity and leaves the world as it
    was; of a complaint it changes [updatedAt] and nothing else. *)
Theorem empty_update (w : World) (id : string) :
  (forall user,
      JsMap.get id (users (storage w)) = Some user ->
      updateUser id [] w = (Some user, w)) /\
  (forall meeting,
      JsMap.get id (meetings (storage w)) = Some meeting ->
      updateMeeting id [] w = (Some meeting, w)) /\
  (forall scenario,
      JsMap.get id (scenarios (storage w)) = Some scenario ->
      updateScenario id [] w = (Some scenario, w)) /\
  (forall complaint,
      JsMap.get id (complaints (storage w)) = Some complaint ->
      exists updated,
        fst (updateComplaint id [] w) = Some updated /\
        same_but_updatedAt complaint updated /\
        Complaint.updatedAt updated = Some (date (clock (ticks w)))).
Proof.
  unfold updateUser, updateMeeting, updateScenario, updateComplaint, bind,
    ret, get_storage, put_storage, new_Date; simpl.
  destruct w as [[us cs ms ss ns] t d]; simpl.
  split; [|split; [|split]].
  - intros user Hget. rewrite Hget. simpl. unfold set_users; simpl.
    now rewrite set_same.
  - intros meeting Hget. rewrite Hget. simpl. unfold set_meetings; simpl.
    now rewrite set_same.
  - intros scenario Hget. rewrite Hget. simpl. unfold set_scenarios; simpl.
    now rewrite set_same.
  - intros complaint Hget. rewrite Hget. simpl.
    eexists. split; [reflexivity|]. split; [|reflexivity].
    apply same_but_updatedAt_sym, same_but_updatedAt_stamp.
Qed.

(** X5. Two updates of one identifier, one after the other, amount to one
    update with the two payloads in a row: exactly so for users, meetings
    and scenarios; for a complaint, up to [updatedAt], which is the reading
    the second update took. *)
Theorem updates_compose (w : World) (id : string) :
  (forall p q,
      updateUser id q (snd (updateUser id p w)) = updateUser id (p ++ q)%list w) /\
  (forall p q,
      updateMeeting id q (snd (updateMeeting id p w))
      = updateMeeting id (p ++ q)%list w) /\
  (forall p q,
      updateScenario id q (snd (updateScenario id p w))
      = updateScenario id (p ++ q)%list w) /\
  (forall p q complaint,
      JsMap.get id (complaints (storage w)) = Some complaint ->
      exists twice once,
        fst (updateComplaint id q (snd (updateComplaint id p w))) = Some twice /\
        fst (updateComplaint id (p ++ q)%list w) = Some once /\
        same_but_updatedAt twice once /\
        Complaint.updatedAt twice = Some (date (clock (S (ticks w)))) /\
        Complaint.updatedAt once = Some (date (clock (ticks w)))).
Proof.
  unfold updateUser, updateMeeting, updateScenario, updateComplaint, bind,
    ret, get_storage, put_storage, new_Date; simpl.
  split; [|split; [|split]].
  - intros p q. destruct (JsMap.get id (users (storage w))) eqn:Hget; simpl.
    + rewrite get_set_same. simpl. unfold set_users; simpl.
      now rewrite set_set, user_spread_app.
    + now rewrite Hget.
  - intros p q. destruct (JsMap.get id (meetings (storage w))) eqn:Hget; simpl.
    + rewrite get_set_same. simpl. unfold set_meetings; simpl.
      now rewrite set_set, meeting_spread_app.
    + now rewrite Hget.
  - intros p q. destruct (JsMap.get id (scenarios (storage w))) eqn:Hget; simpl.
    + rewrite get_set_same. simpl. unfold set_scenarios; simpl.
      now rewrite set_set, scenario_spread_app.
    + now rewrite Hget.
  - intros p q complaint Hget. rewrite Hget. simpl.
    rewrite get_set_same. simpl.
    do 2 eexists. split; [reflexivity|]. split; [reflexivity|].
    split; [|split; reflexivity].
    eapply same_but_updatedAt_trans; [apply same_but_updatedAt_stamp|].
    apply same_but_updatedAt_sym.
    eapply same_but_updatedAt_trans; [apply same_but_updatedAt_stamp|].
    rewrite <- complaint_spread_app.
    apply same_but_updatedAt_spread, same_but_updatedAt_sym,
      same_but_updatedAt_stamp.
Qed.

(** X6. [getUserByPhone] and [getUserByUsername] read only: what they
    return is a user of the store with that phone or username, and they
    return nothing exactly when no user of the store has it. *)
Theorem lookup_by_phone_and_username (w : World) :
  (forall phone,
      snd (getUserByPhone phone w) = w /\
      (forall u, fst (getUserByPhone phone w) = Some u ->
                 In u (JsMap.values (users (storage w))) /\ User.phone u = phone) /\
      (fst (getUserByPhone phone w) = None <->
       forall u, In u (JsMap.values (users (storage w))) -> User.phone u <> phone)) /\
  (forall username,
      snd (getUserByUsername username w) = w /\
      (forall u, fst (getUserByUsername username w) = Some u ->
                 In u (JsMap.values (users (storage w))) /\
                 User.username u = username) /\
      (fst (getUserByUsername username w) = None <->
       forall u, In u (JsMap.values (users (storage w))) ->
                 User.username u <> username)).
Proof.
  unfold getUserByPhone, getUserByUsername, bind, ret, get_storage; simpl.
  split; intros x; (split; [reflexivity|]); split.
  - intros u Hfind. apply find_first_Some in Hfind. destruct Hfind as [Hin Hp].
    split; [exact Hin | now apply String.eqb_eq].
  - rewrite find_first_None. split; intros H u Hin.
    + apply String.eqb_neq. now apply H.
    + apply String.eqb_neq. now apply H.
  - intros u Hfind. apply find_first_Some in Hfind. destruct Hfind as [Hin Hp].
    split; [exact Hin | now apply String.eqb_eq].
  - rewrite find_first_None. split; intros H u Hin.
    + apply String.eqb_neq. now apply H.
    + apply String.eqb_neq. now apply H.
Qed.

(** What the world is after a registration that was answered 201. *)
Lemma registered (w : World) (body : Body) (userData : InsertUser.t) :
  insertUserSchema_parse body = Some userData ->
  status_of (fst (post_auth_register body w)) = 201 ->
  exists user w',
    fst (createUser userData w) = user /\
    snd (post_auth_register body w) = w' /\
    users (storage w') = JsMap.set (User.id user) user (users (storage w)) /\
    User.phone user = InsertUser.phone userData /\
    User.email user = InsertUser.email userData /\
    User.password user = InsertUser.password userData /\
    User.isActive user = bool_nullish (InsertUser.isActive userData) true /\
    forall u, In u (JsMap.values (users (storage w))) ->
              User.phone u <> InsertUser.phone userData /\
              User.email u <> InsertUser.email userData.
Proof.
  intros Hparse. unfold post_auth_register. rewrite Hparse.
  unfold getUsers, createUser, bind, ret, get_storage, put_storage,
    randomUUID, new_Date. simpl.
  destruct (find_first _ _) eqn:Hfind; simpl; [discriminate|].
  intros _. do 2 eexists. do 7 (split; [reflexivity|]).
  intros u Hin. rewrite find_first_None in Hfind.
  specialize (Hfind u Hin). apply orb_false_iff in Hfind.
  destruct Hfind as [Hp He]. split; now apply String.eqb_neq.
Qed.

(** What [createUser] makes of a request. *)
Lemma createUser_made_from (insertUser : InsertUser.t) (w : World) :
  made_from (fst (createUser insertUser w)) insertUser (uuid (draws w))
    (date (clock (ticks w))).
Proof. repeat split. Qed.

(** X7. After a registration answered 201, a lookup by the registered
    phone finds the user that was created. *)
Theorem register_then_lookup
        (w : World) (body : Body) (userData : InsertUser.t) :
  insertUserSchema_parse body = Some userData ->
  status_of (fst (post_auth_register body w)) = 201 ->
  fst (getUserByPhone (InsertUser.phone userData)
         (snd (post_auth_register body w)))
  = Some (fst (createUser userData w)).
Proof.
  intros Hparse Hok.
  destruct (registered w Hparse Hok)
    as (user & w' & -> & -> & Husers & Hph & Hem & Hpw & Hact & Hnew).
  unfold getUserByPhone, bind, ret, get_storage. simpl.
  rewrite Husers. apply find_first_unique.
  - apply In_values_set.
  - rewrite Hph. apply String.eqb_refl.
  - intros y Hin Hy. apply In_values_set_inv in Hin.
    destruct Hin as [E|Hin]; [exact E|].
    apply String.eqb_eq in Hy. now elim (proj1 (Hnew y Hin)).
Qed.

(** X8. After a registration answered 201, the same request is answered
    400: the phone is registered now. *)
Theorem register_twice
        (w : World) (body : Body) (userData : InsertUser.t) :
  insertUserSchema_parse body = Some userData ->
  status_of (fst (post_auth_register body w)) = 201 ->
  let w' := snd (post_auth_register body w) in
  post_auth_register body w' = (Message 400 "Phone number already registered", w').
Proof.
  intros Hparse Hok.
  destruct (registered w Hparse Hok)
    as (user & w' & _ & -> & Husers & Hph & Hem & Hpw & Hact & Hnew).
  unfold post_auth_register. rewrite Hparse.
  unfold getUsers, bind, ret, get_storage. simpl.
  rewrite Husers.
  rewrite find_first_unique with (x := user).
  - now rewrite Hph, String.eqb_refl.
  - apply In_values_set.
  - now rewrite Hph, String.eqb_refl.
  - intros y Hin Hy. apply In_values_set_inv in Hin.
    destruct Hin as [E|Hin]; [exact E|].
    destruct (Hnew y Hin) as [Hp He].
    apply orb_true_iff in Hy. destruct Hy as [E|E];
      apply String.eqb_eq in E; congruence.
Qed.

(** X9. After a registration answered 201, a login with the registered
    phone and password (both non-empty) is answered 200 with the user the
    registration made of the request, every property of it but the
    password, unless the registration asked for an inactive user, in which
    case it is answered 401. *)
Theorem register_then_login
        (w : World) (body : Body) (userData : InsertUser.t) :
  insertUserSchema_parse body = Some userData ->
  status_of (fst (post_auth_register body w)) = 201 ->
  InsertUser.phone userData <> "" ->
  InsertUser.password userData <> "" ->
  let w' := snd (post_auth_register body w) in
  let credentials :=
    {| LoginBody.phone := Some (InsertUser.phone userData);
       LoginBody.password := Some (InsertUser.password userData) |} in
  exists user,
    made_from user userData (uuid (draws w)) (date (clock (ticks w))) /\
    match InsertUser.isActive userData with
    | Some false =>
        fst (post_auth_login credentials w')
        = Message 401 "Invalid phone number or password"
    | _ =>
        exists stripped,
          fst (post_auth_login credentials w')
          = Json 200 {| AuthReply.user := stripped;
                        AuthReply.message := "Login successful" |} /\
          without_password stripped user
    end.
Proof.
  intros Hparse Hok Hphone Hpassword.
  destruct (registered w Hparse Hok)
    as (user & w' & Huser & -> & Husers & Hph & Hem & Hpw & Hact & Hnew).
  simpl. exists user. split; [rewrite <- Huser; apply createUser_made_from|].
  assert (Hlogin :
            fst (post_auth_login
                   {| LoginBody.phone := Some (InsertUser.phone userData);
                      LoginBody.password := Some (InsertUser.password userData) |}
                   w')
            = if User.isActive user
              then Json 200 {| AuthReply.user := UserWithoutPassword.of_user user;
                               AuthReply.message := "Login successful" |}
              else Message 401 "Invalid phone number or password").
  { unfold post_auth_login. simpl.
    apply String.eqb_neq in Hphone, Hpassword.
    rewrite Hphone, Hpassword. simpl.
    unfold getUsers, bind, ret, get_storage. simpl.
    rewrite Husers.
    rewrite find_first_unique with (x := user).
    - destruct (User.isActive user); simpl; [|reflexivity].
      unfold updateUser, new_Date, bind, ret, get_storage, put_storage. simpl.
      rewrite Husers, get_set_same. reflexivity.
    - apply In_values_set.
    - now rewrite Hph, Hpw, !String.eqb_refl.
    - intros y Hin Hy. apply In_values_set_inv in Hin.
      destruct Hin as [E|Hin]; [exact E|].
      apply andb_true_iff in Hy. destruct Hy as [E _].
      apply String.eqb_eq in E. now elim (proj1 (Hnew y Hin)). }
  rewrite Hlogin, Hact.
  destruct (InsertUser.isActive userData) as [[|]|]; simpl;
    try reflexivity;
    (eexists; split; [reflexivity | apply of_user_without_password]).
Qed.

(** X10. The reply to a login shows [lastLogin] as it was before that
    login: when a login is answered 200, it is answered with a stored user
    that has the phone and the password of the request, every property of
    it but the password, as it was before the login; and the same login
    made again is answered 200 with the same properties but [lastLogin],
    which is the time of the first login. (The store has been built by
    calls whose payloads carry no [id].) *)
Theorem login_twice (cs : list Call) (credentials : LoginBody.t) :
  forallb (fun c => negb (call_sets_id c)) cs = true ->
  let w := run cs new_MemStorage in
  status_of (fst (post_auth_login credentials w)) = 200 ->
  exists user first second,
    JsMap.get (User.id user) (users (storage w)) = Some user /\
    LoginBody.phone credentials = Some (User.phone user) /\
    LoginBody.password credentials = Some (User.password user) /\
    fst (post_auth_login credentials w)
    = Json 200 {| AuthReply.user := first;
                  AuthReply.message := "Login successful" |} /\
    without_password first user /\
    fst (post_auth_login credentials (snd (post_auth_login credentials w)))
    = Json 200 {| AuthReply.user := second;
                  AuthReply.message := "Login successful" |} /\
    same_but_lastLogin first second /\
    UserWithoutPassword.lastLogin second = Some (date (clock (ticks w))).
Proof.
  intros Hcs w.
  assert (Hkept : ids_kept w)
    by (apply run_ids_kept; [exact Hcs | exact new_MemStorage_ids_kept]).
  assert (Hcons : consistent w)
    by (apply run_consistent; exact new_MemStorage_consistent).
  unfold post_auth_login.
  destruct (falsy (LoginBody.phone credentials)
            || falsy (LoginBody.password credentials)) eqn:Hguard;
    [discriminate|].
  unfold getUsers, bind, ret, get_storage. simpl.
  destruct (find_first _ (JsMap.values (users (storage w))))
    as [user|] eqn:Hfind; [|discriminate].
  destruct (User.isActive user) eqn:Hactive; simpl; [|discriminate].
  intros _. exists user.
  pose proof (found_user_is_stored cs _ Hcs Hfind) as Hstored.
  unfold updateUser, new_Date, bind, ret, get_storage, put_storage. simpl.
  fold w in Hstored. rewrite Hstored. simpl.
  do 2 eexists.
  split; [reflexivity|].
  pose proof (find_first_Some _ _ Hfind) as [_ Hmatch].
  apply andb_true_iff in Hmatch. destruct Hmatch as [Hph Hpw].
  destruct credentials as [[phone|] [password|]]; simpl in *;
    try discriminate.
  apply String.eqb_eq in Hph, Hpw. subst phone password.
  split; [reflexivity|]. split; [reflexivity|].
  split; [reflexivity|]. split; [apply of_user_without_password|].
  rewrite find_first_set with (id_of := User.id) (v := user)
    (v' := User.assign (User.F_lastLogin (Some (date (clock (ticks w))))) user).
  - simpl. rewrite Hactive. simpl. rewrite get_set_same.
    split; [reflexivity|]. repeat split.
  - apply (users_drawn Hcons).
  - apply (users_keyed Hkept).
  - exact Hfind.
  - simpl. now rewrite !String.eqb_refl.
Qed.

(** X11. [getComplaintsByUser] reads only and returns the complaints of
    the store whose [submitterId] is the user. A complaint created under an
    identifier not in use is appended to the list of its submitter and
    leaves the list of everyone else as it was. *)
Theorem complaints_by_user (w : World) (userId : string) :
  snd (getComplaintsByUser userId w) = w /\
  (forall c, In c (fst (getComplaintsByUser userId w)) <->
             In c (JsMap.values (complaints (storage w))) /\
             Complaint.submitterId c = userId) /\
  (forall insertComplaint,
      JsMap.get (uuid (draws w)) (complaints (storage w)) = None ->
      let complaint := fst (createComplaint insertComplaint w) in
      let w' := snd (createComplaint insertComplaint w) in
      fst (getComplaintsByUser userId w')
      = if String.eqb (InsertComplaint.submitterId insertComplaint) userId
        then (fst (getComplaintsByUser userId w) ++ [complaint])%list
        else fst (getComplaintsByUser userId w)).
Proof.
  unfold getComplaintsByUser, createComplaint, bind, ret, get_storage,
    put_storage, randomUUID, new_Date; simpl.
  split; [reflexivity|]. split.
  - intros c. rewrite filter_In. split; intros [Hin Hs]; split; auto.
    + now apply String.eqb_eq.
    + now apply String.eqb_eq.
  - intros ins Hfresh. rewrite set_absent by exact Hfresh.
    rewrite values_app, filter_app. simpl.
    destruct (String.eqb (InsertComplaint.submitterId ins) userId);
      [reflexivity | apply app_nil_r].
Qed.

(** X12. [getMeetingsByUser] returns the meetings of the store that the
    user organizes or attends; a meeting without attendee list is found
    through its organizer only. A meeting just created is in the list of
    its organizer and of each of its attendees. *)
Theorem meetings_by_user (w : World) (userId : string) :
  (forall m, In m (fst (getMeetingsByUser userId w)) <->
             In m (JsMap.values (meetings (storage w))) /\
             (Meeting.organizerId m = userId \/
              exists ids, Meeting.attendeeIds m = Some ids /\ In userId ids)) /\
  (forall insertMeeting,
      InsertMeeting.organizerId insertMeeting = userId \/
      (exists ids, InsertMeeting.attendeeIds insertMeeting = Some ids /\
                   In userId ids) ->
      In (fst (createMeeting insertMeeting w))
        (fst (getMeetingsByUser userId (snd (createMeeting insertMeeting w))))).
Proof.
  assert (Hchar : forall m l,
             In m (filter
                     (fun meeting =>
                        String.eqb (Meeting.organizerId meeting) userId
                        || match Meeting.attendeeIds meeting with
                           | Some ids => existsb (String.eqb userId) ids
                           | None => false
                           end) l) <->
             In m l /\
             (Meeting.organizerId m = userId \/
              exists ids, Meeting.attendeeIds m = Some ids /\ In userId ids)).
  { intros m l. rewrite filter_In, orb_true_iff, String.eqb_eq.
    split; intros [Hin H]; (split; [exact Hin|]).
    - destruct H as [H|H]; [now left|]. right.
      destruct (Meeting.attendeeIds m) as [ids|]; [|discriminate].
      exists ids. split; [reflexivity|].
      apply existsb_exists in H. destruct H as [x [Hx E]].
      apply String.eqb_eq in E. now subst x.
    - destruct H as [H|[ids [E Hin']]]; [now left|]. right.
      rewrite E. apply existsb_exists. exists userId.
      split; [exact Hin' | apply String.eqb_refl]. }
  split.
  - intros m. unfold getMeetingsByUser, bind, ret, get_storage; simpl.
    apply Hchar.
  - intros ins Hmine.
    unfold getMeetingsByUser, createMeeting, bind, ret, get_storage,
      put_storage, randomUUID, new_Date; simpl.
    apply Hchar. split; [apply In_values_set | exact Hmine].
Qed.

(** X13. Listing scenarios returns all the scenarios of the store;
    listing the notifications of a user returns all the notifications of
    the store addressed to that user, and no other. When no scenario of the
    store has an invalid date as [createdAt], the scenarios are listed
    newest created first; when no notification addressed to the user has
    one, so are the notifications (a null [createdAt] counting as the
    epoch). *)
Theorem scenarios_and_notifications_ordered (w : World) (userId : string) :
  Permutation (JsMap.values (scenarios (storage w))) (fst (getScenarios w)) /\
  ((forall s, In s (JsMap.values (scenarios (storage w))) ->
              Scenario.createdAt s <> Some Invalid_Date) ->
   StronglySorted
     (fun a b => not_before (Date_of (Scenario.createdAt a))
                   (Date_of (Scenario.createdAt b)))
     (fst (getScenarios w))) /\
  Permutation
    (filter (fun n => String.eqb (Notification.userId n) userId)
       (JsMap.values (notifications (storage w))))
    (fst (getNotifications userId w)) /\
  ((forall n, In n (JsMap.values (notifications (storage w))) ->
              Notification.userId n = userId ->
              Notification.createdAt n <> Some Invalid_Date) ->
   StronglySorted
     (fun a b => not_before (Date_of (Notification.createdAt a))
                   (Date_of (Notification.createdAt b)))
     (fst (getNotifications userId w))) /\
  (forall n, In n (fst (getNotifications userId w)) ->
             Notification.userId n = userId) /\
  get_scenarios w = (Json 200 (fst (getScenarios w)), w) /\
  get_notifications userId w = (Json 200 (fst (getNotifications userId w)), w).
Proof.
  unfold get_scenarios, get_notifications, getScenarios, getNotifications,
    bind, ret, get_storage; simpl.
  split; [apply sort_perm|].
  split.
  { intros Hvalid.
    assert (Htime : forall s, In s (JsMap.values (scenarios (storage w))) ->
                getTime (Date_of (Scenario.createdAt s))
                = Some (time_value (Date_of (Scenario.createdAt s)))).
    { intros s Hin. apply getTime_time_value, Date_of_valid. now apply Hvalid. }
    apply StronglySorted_weaken_on
      with (R := ascending
                   (fun s => - time_value (Date_of (Scenario.createdAt s)))).
    - intros a b Ha Hb Hab. apply sort_In in Ha, Hb.
      do 2 eexists. split; [now apply Htime|]. split; [now apply Htime|].
      unfold ascending in Hab. lia.
    - apply sort_strongly_sorted_on. intros a b Ha Hb.
      rewrite (Htime a Ha), (Htime b Hb). simpl. lia. }
  split; [apply sort_perm|].
  split.
  { intros Hvalid.
    assert (Htime : forall n,
                In n (filter (fun n => String.eqb (Notification.userId n) userId)
                        (JsMap.values (notifications (storage w)))) ->
                getTime (Date_of (Notification.createdAt n))
                = Some (time_value (Date_of (Notification.createdAt n)))).
    { intros n Hin. apply filter_In in Hin. destruct Hin as [Hin Hu].
      apply String.eqb_eq in Hu.
      apply getTime_time_value, Date_of_valid. now apply Hvalid. }
    apply StronglySorted_weaken_on
      with (R := ascending
                   (fun n => - time_value (Date_of (Notification.createdAt n)))).
    - intros a b Ha Hb Hab. apply sort_In in Ha, Hb.
      do 2 eexists. split; [now apply Htime|]. split; [now apply Htime|].
      unfold ascending in Hab. lia.
    - apply sort_strongly_sorted_on. intros a b Ha Hb.
      rewrite (Htime a Ha), (Htime b Hb). simpl. lia. }
  split; [|split; reflexivity].
  intros n Hin.
  eapply Permutation_in in Hin; [|apply Permutation_sym, sort_perm].
  apply filter_In in Hin. now apply String.eqb_eq.
Qed.





(** X18. The 201 body of [POST /api/scenarios] is the scenario as
    [createScenario] returned it, AI fields null, whatever the AI call
    does. When the AI call fails nothing but the creation has happened and
    [GET /api/scenarios/:id] answers with that same scenario; when it
    succeeds, [GET /api/scenarios/:id] answers with the scenario
    annotated, its text, identifier and [createdAt] as created. *)
Theorem scenario_response_is_creation_snapshot
        (w : World) (body : Body) (scenarioData : InsertScenario.t) :
  insertScenarioSchema_parse body = Some scenarioData ->
  let scenario := fst (createScenario scenarioData w) in
  let w' := snd (post_scenarios body w) in
  fst (post_scenarios body w) = Json 201 scenario /\
  Scenario.aiResponse scenario = None /\
  Scenario.recommendedActions scenario = None /\
  Scenario.riskLevel scenario = None /\
  (generateScenarioResponse (InsertScenario.scenario scenarioData) = None ->
   w' = snd (createScenario scenarioData w) /\
   get_scenario (Scenario.id scenario) w' = (Json 200 scenario, w')) /\
  (forall aiResult,
      generateScenarioResponse (InsertScenario.scenario scenarioData)
      = Some aiResult ->
      exists stored,
        get_scenario (Scenario.id scenario) w' = (Json 200 stored, w') /\
        Scenario.aiResponse stored = Some (ScenarioAnalysis.response aiResult) /\
        Scenario.recommendedActions stored
        = Some (JSON_stringify (ScenarioAnalysis.recommendedActions aiResult)) /\
        Scenario.riskLevel stored = Some (ScenarioAnalysis.riskLevel aiResult) /\
        Scenario.scenario stored = InsertScenario.scenario scenarioData /\
        Scenario.id stored = Scenario.id scenario /\
        Scenario.createdAt stored = Scenario.createdAt scenario).
Proof.
  intros Hparse.
  unfold post_scenarios, get_scenario, getScenario, createScenario,
    updateScenario, bind, ret, get_storage, put_storage, randomUUID, new_Date.
  rewrite Hparse. simpl.
  split.
  { destruct (generateScenarioResponse _); simpl; [|reflexivity].
    now rewrite get_set_same. }
  do 3 (split; [reflexivity|]).
  split.
  - intros Hfail. rewrite Hfail. simpl. rewrite get_set_same.
    split; reflexivity.
  - intros aiResult Hok. rewrite Hok. simpl.
    rewrite get_set_same. simpl. rewrite get_set_same.
    eexists. split; [reflexivity|]. repeat split.
Qed.

(** X19. [POST /api/ai/chat] never touches the world. It answers 200 with
    a response exactly when the body has a question and the language model
    answers it with that response; a body without question and a failed
    language-model call are both answered 400 "Invalid request". *)
Theorem chat_outcomes (w : World) (body : Body) :
  snd (post_ai_chat body w) = w /\
  (forall response,
      fst (post_ai_chat body w) = Json 200 response <->
      exists question,
        question_parse body = Some question /\
        generateHRResponse question = Some response) /\
  (question_parse body = None \/
   (exists question, question_parse body = Some question /\
                     generateHRResponse question = None) <->
   fst (post_ai_chat body w) = Message 400 "Invalid request").
Proof.
  unfold post_ai_chat, ret.
  destruct (question_parse body) as [question|] eqn:Hq; simpl.
  - destruct (generateHRResponse question) as [answer|] eqn:Ha; simpl.
    + split; [reflexivity|]. split.
      * intros response. split.
        -- intros [= ->]. now exists question.
        -- intros [q [[= <-] Hq']]. congruence.
      * split; [|discriminate].
        intros [H|[q [[= <-] Hq']]]; congruence.
    + split; [reflexivity|]. split.
      * intros response. split; [discriminate|].
        intros [q [[= <-] Hq']]. congruence.
      * split; [reflexivity|]. intros _. right. now exists question.
  - split; [reflexivity|]. split.
    + intros response. split; [discriminate|].
      intros [q [Hq' _]]. discriminate.
    + split; [reflexivity|]. intros _. now left.
Qed.

(** X20. [POST /api/meetings] on a body the schema refuses answers 400
    with the message of the schema's error and changes nothing. On a body
    the schema accepts it answers 201 with the meeting created, which
    [GET /api/meetings/:id] and the listing then return; its duration is
    never 0: one left out or given as 0 has become 30. *)
Theorem meeting_creation (w : World) (body : Body) :
  (forall error_message,
      insertMeetingSchema_parse (convert_scheduledDate body)
      = inr error_message ->
      post_meetings body w
      = (Json 400 (inr {| InvalidMeeting.message := "Invalid meeting data";
                          InvalidMeeting.error := error_message |}), w)) /\
  (forall meetingData,
      insertMeetingSchema_parse (convert_scheduledDate body)
      = inl meetingData ->
      let meeting := fst (createMeeting meetingData w) in
      let w' := snd (post_meetings body w) in
      fst (post_meetings body w) = Json 201 (inl meeting) /\
      get_meeting (Meeting.id meeting) w' = (Json 200 meeting, w') /\
      In meeting (fst (getMeetings w')) /\
      Meeting.duration meeting <> 0 /\
      (InsertMeeting.duration meetingData = None \/
       InsertMeeting.duration meetingData = Some 0 ->
       Meeting.duration meeting = 30)).
Proof.
  unfold post_meetings, get_meeting, getMeeting, getMeetings, createMeeting,
    bind, ret, get_storage, put_storage, randomUUID, new_Date.
  split.
  - intros e He. now rewrite He.
  - intros meetingData Hparse. rewrite Hparse. simpl.
    rewrite get_set_same.
    split; [reflexivity|]. split; [reflexivity|].
    split; [eapply Permutation_in; [apply sort_perm | apply In_values_set]|].
    split.
    + unfold num_or. destruct (InsertMeeting.duration meetingData) as [d|];
        [|discriminate].
      destruct (Z.eqb_spec d 0); [discriminate | assumption].
    + intros [E|E]; rewrite E; reflexivity.
Qed.

(** X21. [POST /api/users] on a body the schema accepts creates a user
    whatever users the store holds already, and answers 201 with it,
    password included; [GET /api/users/:id], which answered 404 for that
    identifier when it was not in use, then answers 200 with the same
    user, password included. A body the schema refuses is answered 400
    and changes nothing. *)
Theorem user_creation_round_trip (w : World) (body : Body) :
  (insertUserSchema_parse body = None ->
   post_users body w = (Message 400 "Invalid user data", w)) /\
  (forall userData,
      insertUserSchema_parse body = Some userData ->
      let user := fst (createUser userData w) in
      let w' := snd (post_users body w) in
      fst (post_users body w) = Json 201 user /\
      w' = snd (createUser userData w) /\
      (JsMap.get (User.id user) (users (storage w)) = None ->
       get_user (User.id user) w = (Message 404 "User not found", w)) /\
      get_user (User.id user) w' = (Json 200 user, w') /\
      User.password user = InsertUser.password userData).
Proof.
  unfold post_users, get_user, getUser, createUser, bind, ret, get_storage,
    put_storage, randomUUID, new_Date.
  split.
  - intros Hparse. now rewrite Hparse.
  - intros userData Hparse. rewrite Hparse. simpl.
    rewrite get_set_same.
    split; [reflexivity|]. split; [reflexivity|].
    split; [|split; reflexivity].
    intros Hunused. now rewrite Hunused.
Qed.

(** The analytics handler writes nothing and draws no identifier. *)
Lemma analytics_world (w : World) :
  exists stats w',
    get_analytics_stats w = (Json 200 stats, w') /\
    storage w' = storage w /\ draws w' = draws w.
Proof.
  unfold get_analytics_stats, getComplaints, getMeetings.
  unfold bind at 1 2 3 4. unfold get_storage, ret. simpl.
  set (cs := sort _ (JsMap.values (complaints (storage w)))).
  set (ms := sort _ (JsMap.values (meetings (storage w)))).
  destruct (filterM_reads resolved_this_month is_resolved 2 cs) with (w := w)
    as (Hs1 & Hd1 & _ & _).
  { intros x w0. unfold resolved_this_month, new_Date, bind, ret. simpl.
    repeat split; try lia. intros H.
    apply andb_true_iff in H. destruct H as [H _].
    apply andb_true_iff in H. exact (proj1 H). }
  destruct (filterM resolved_this_month cs w) as [resolved w1] eqn:E1.
  simpl in Hs1, Hd1.
  destruct (filterM_reads is_upcoming is_scheduled 1 ms) with (w := w1)
    as (Hs2 & Hd2 & _ & _).
  { intros x w0. unfold is_upcoming, new_Date, bind, ret. simpl.
    repeat split; try lia. intros H.
    apply andb_true_iff in H. exact (proj2 H). }
  destruct (filterM is_upcoming ms w1) as [upcoming w2] eqn:E2.
  simpl in Hs2, Hd2.
  unfold bind. rewrite E1, E2.
  do 2 eexists. split; [reflexivity|]. split; congruence.
Qed.

(** The handlers that do not write to the users leave them alone. *)
Lemma users_untouched (r : Request) (w : World) :
  match r with
  | PostUsers _ | PostAuthLogin _ | PostAuthRegister _ => True
  | _ => users (storage (serve r w)) = users (storage w)
         /\ (draws w <= draws (serve r w))%nat
  end.
Proof.
  destruct r; try exact I; unfold serve;
    try (split; [reflexivity | apply Nat.le_refl]).
  - unfold get_user, getUser, bind, ret, get_storage. simpl.
    destruct (JsMap.get _ _); simpl; split; [reflexivity | lia | reflexivity | lia].
  - unfold get_complaint, getComplaint, bind, ret, get_storage. simpl.
    destruct (JsMap.get _ _); simpl; split; [reflexivity | lia | reflexivity | lia].
  - unfold post_complaints, createComplaint, updateComplaint, bind, ret,
      get_storage, put_storage, randomUUID, new_Date.
    destruct (insertComplaintSchema_parse body); simpl;
      [|split; [reflexivity | lia]].
    destruct (analyzeComplaint _ _); simpl; [|split; [reflexivity | lia]].
    rewrite get_set_same. simpl. split; [reflexivity | lia].
  - unfold patch_complaint, updateComplaint, bind, ret, get_storage,
      put_storage, new_Date. simpl.
    destruct (JsMap.get _ _); simpl; split; [reflexivity | lia | reflexivity | lia].
  - unfold get_meeting, getMeeting, bind, ret, get_storage. simpl.
    destruct (JsMap.get _ _); simpl; split; [reflexivity | lia | reflexivity | lia].
  - unfold post_meetings, createMeeting, bind, ret, get_storage, put_storage,
      randomUUID, new_Date.
    destruct (insertMeetingSchema_parse _); simpl;
      split; [reflexivity | lia | reflexivity | lia].
  - unfold get_scenario, getScenario, bind, ret, get_storage. simpl.
    destruct (JsMap.get _ _); simpl; split; [reflexivity | lia | reflexivity | lia].
  - unfold post_scenarios, createScenario, updateScenario, bind, ret,
      get_storage, put_storage, randomUUID, new_Date.
    destruct (insertScenarioSchema_parse body); simpl;
      [|split; [reflexivity | lia]].
    destruct (generateScenarioResponse _); simpl; [|split; [reflexivity | lia]].
    rewrite get_set_same. simpl. split; [reflexivity | lia].
  - unfold post_ai_chat, ret.
    destruct (question_parse body); simpl; [|split; [reflexivity | lia]].
    destruct (generateHRResponse _); simpl; split; [reflexivity | lia | reflexivity | lia].
  - destruct (analytics_world w) as (stats & w' & E & Hs & Hd).
    rewrite E. simpl. split; [congruence | lia].
Qed.

Lemma default_user_first_createUser (insertUser : InsertUser.t) (w : World) :
  (forall i j, uuid i = uuid j -> i = j) ->
  default_user_first w ->
  default_user_first (snd (createUser insertUser w)).
Proof.
  intros Hinj (u & rest & Hus & Hu & Hd).
  unfold createUser, bind, ret, get_storage, put_storage, randomUUID,
    new_Date. simpl. rewrite Hus. simpl.
  destruct (String.eqb_spec (uuid (draws w)) (uuid 0)) as [E|_].
  - apply Hinj in E. lia.
  - exists u. eexists. split; [reflexivity|].
    split; [exact Hu|]. simpl. lia.
Qed.

Lemma default_user_first_login (id : string) (t : option Date) (w : World) :
  default_user_first w ->
  default_user_first (snd (updateUser id [User.F_lastLogin t] w)).
Proof.
  intros (u & rest & Hus & Hu & Hd).
  unfold updateUser, bind, ret, get_storage, put_storage. simpl.
  rewrite Hus. simpl.
  destruct (String.eqb_spec id (uuid 0)) as [->|Hne]; simpl.
  - exists (User.assign (User.F_lastLogin t) u), rest.
    split; [reflexivity|]. split; [exact Hu | exact Hd].
  - destruct (JsMap.get id rest); simpl.
    + exists u. eexists. split; [reflexivity|].
      split; [exact Hu | exact Hd].
    + exists u, rest. split; [exact Hus|].
      split; [exact Hu | exact Hd].
Qed.

Lemma default_user_first_serve (r : Request) (w : World) :
  (forall i j, uuid i = uuid j -> i = j) ->
  default_user_first w -> default_user_first (serve r w).
Proof.
  intros Hinj Hw.
  pose proof (users_untouched r w) as Hsame.
  destruct r;
    try (pose proof (proj1 Hsame) as Hus; pose proof (proj2 Hsame) as Hdraws;
         destruct Hw as (u & rest & Hw & Hu & Hd);
         exists u, rest; rewrite Hus; split; [exact Hw|];
         split; [exact Hu | lia]).
  - unfold serve, post_users.
    destruct (insertUserSchema_parse body) as [userData|]; [|exact Hw].
    exact (default_user_first_createUser userData Hinj Hw).
  - unfold serve, post_auth_login.
    destruct (falsy _ || falsy _); [exact Hw|].
    unfold getUsers, bind, ret, get_storage. simpl.
    destruct (find_first _ _) as [user|]; [|exact Hw].
    destruct (User.isActive user); simpl; [|exact Hw].
    pose proof (default_user_first_login (User.id user)
                  (Some (date (clock (ticks w))))
                  (w := {| storage := storage w; ticks := S (ticks w);
                           draws := draws w |}) Hw) as H.
    unfold new_Date. simpl.
    destruct (updateUser _ _ _). exact H.
  - unfold serve, post_auth_register.
    destruct (insertUserSchema_parse body) as [userData|]; [|exact Hw].
    unfold getUsers, bind, ret, get_storage. simpl.
    destruct (find_first _ _); [exact Hw|].
    exact (default_user_first_createUser userData Hinj Hw).
Qed.

(** X22. Whatever requests have been served since the store was
    constructed, the default HR manager can log in ([randomUUID] never
    repeating): a login with phone "+1234567890" and password "password123"
    is answered 200 with the user [initializeDefaults] created, under the
    first identifier drawn, every property but the password as it was
    created, and [lastLogin] as the user stored under that identifier has
    it. *)
Theorem default_user_can_always_log_in (rs : list Request) :
  (forall i j, uuid i = uuid j -> i = j) ->
  let w := serve_all rs new_MemStorage in
  exists stripped user,
    fst (post_auth_login
           {| LoginBody.phone := Some "+1234567890";
              LoginBody.password := Some "password123" |} w)
    = Json 200 {| AuthReply.user := stripped;
                  AuthReply.message := "Login successful" |} /\
    UserWithoutPassword.id stripped = uuid 0 /\
    UserWithoutPassword.username stripped = "sarah.johnson" /\
    UserWithoutPassword.email stripped = "sarah.johnson@company.com" /\
    UserWithoutPassword.phone stripped = "+1234567890" /\
    UserWithoutPassword.name stripped = "Sarah Johnson" /\
    UserWithoutPassword.role stripped = "hr_manager" /\
    UserWithoutPassword.department stripped = Some "Human Resources" /\
    UserWithoutPassword.isActive stripped = true /\
    UserWithoutPassword.createdAt stripped = Some (date (clock 0)) /\
    JsMap.get (uuid 0) (users (storage w)) = Some user /\
    UserWithoutPassword.lastLogin stripped = User.lastLogin user.
Proof.
  intros Hinj w.
  assert (Hw : default_user_first w).
  { unfold w, serve_all.
    assert (H0 : default_user_first new_MemStorage).
    { rewrite new_MemStorage_eq. exists hrManager, [].
      split; [reflexivity|]. split; [repeat split | simpl; lia]. }
    revert H0. generalize new_MemStorage.
    induction rs as [|r rs IH]; intros w0 H0; simpl; [exact H0|].
    apply IH. now apply default_user_first_serve. }
  destruct Hw as (u & rest & Hus
                  & (Hid & Hun & Hpw & Hem & Hph & Hna & Hro & Hde & Hact & Hcr)
                  & Hd).
  exists (UserWithoutPassword.of_user u), u.
  split.
  { unfold post_auth_login. simpl.
    unfold getUsers, bind, ret, get_storage. simpl.
    rewrite Hus. simpl. rewrite Hph, Hpw. simpl. rewrite Hact. simpl.
    unfold updateUser, new_Date, bind, ret, get_storage, put_storage. simpl.
    rewrite Hus, Hid. simpl. rewrite String.eqb_refl. reflexivity. }
  simpl. do 9 (split; [assumption|]).
  split; [|reflexivity]. rewrite Hus. simpl. now rewrite String.eqb_refl.
Qed.


End Server.

(** ** The claims at concrete inputs *)

(** A fresh store, the store after one complaint was filed (under a clock
    that advances and under one that stands still), and the store after two
    [POST /api/users] with one phone. *)
Local Abbreviation fresh := (new_MemStorage ticking nth_uuid).

Local Abbreviation filed :=
  (run ticking nth_uuid [CreateComplaint grievance] fresh).

Local Abbreviation filed_standing :=
  (run standing nth_uuid [CreateComplaint grievance]
     (new_MemStorage standing nth_uuid)).

Local Abbreviation two_bobs :=
  (snd (post_users ticking nth_uuid user_of
          (Some (bob "second-pw" "bob2@company.com"), None)
          (snd (post_users ticking nth_uuid user_of
                  (Some (bob "first-pw" "bob1@company.com"), None) fresh)))).

(** The store after Carol was created, after three complaints were filed
    and the second patched with a [createdAt] that is no date, and after
    two meetings were booked, the later one first. *)
Local Abbreviation with_carol :=
  (run ticking nth_uuid [CreateUser carol] fresh).

Local Abbreviation filed_thrice :=
  (run ticking nth_uuid
     [CreateComplaint grievance; CreateComplaint grievance;
      CreateComplaint grievance] fresh).

Local Abbreviation patched :=
  (snd (patch_complaint ticking "xxu"
          [Complaint.F_createdAt (Some Invalid_Date)] filed_thrice)).

Local Abbreviation booked :=
  (run ticking nth_uuid [CreateMeeting kickoff; CreateMeeting retro] filed_thrice).

Lemma nth_uuid_inj (i j : nat) : nth_uuid i = nth_uuid j -> i = j.
Proof.
  revert j. induction i as [|i IH]; intros [|j]; simpl; intros H.
  - reflexivity.
  - discriminate.
  - discriminate.
  - injection H as H. f_equal. now apply IH.
Qed.

Lemma ticking_mono (n : nat) : ticking n <= ticking (S n).
Proof. unfold ticking. lia. Qed.

(** No complaint of a fresh store is called "missing". *)
Lemma update_absent_not_found_witness :
  JsMap.get "missing" (complaints (storage fresh)) = None /\
  updateComplaint ticking "missing" [Complaint.F_status "resolved"] fresh
  = (None, fresh) /\
  patch_complaint ticking "missing" [Complaint.F_status "resolved"] fresh
  = (Message 404 "Complaint not found", fresh).
Proof.
  split; [reflexivity|].
  apply (proj1 (update_absent_not_found ticking fresh "missing")).
  reflexivity.
Defined.

(** A second Sarah with the phone of the default user. *)
Lemma fresh_store_has_default_user_witness :
  user_of (Some sarah_again, None) = Some sarah_again /\
  InsertUser.phone sarah_again = "+1234567890" /\
  post_auth_register ticking nth_uuid user_of (Some sarah_again, None) fresh
  = (Message 400 "Phone number already registered", fresh).
Proof.
  split; [reflexivity|]. split; [reflexivity|].
  apply (proj2 (fresh_store_has_default_user ticking nth_uuid user_of)
           (Some sarah_again, None) sarah_again); reflexivity.
Defined.

(** A complaint filed while the language model is down. *)
Lemma ai_failure_is_tolerated_witness :
  complaint_of (None, Some grievance) = Some grievance /\
  ai_down (InsertComplaint.title grievance)
    (InsertComplaint.description grievance) = None /\
  fst (post_complaints ticking nth_uuid complaint_of ai_down join_strings
         (None, Some grievance) fresh)
  = Json 201 (fst (createComplaint ticking nth_uuid grievance fresh)).
Proof.
  split; [reflexivity|]. split; [reflexivity|].
  apply (ai_failure_is_tolerated ticking nth_uuid complaint_of ai_down
           join_strings fresh (None, Some grievance));
    reflexivity.
Defined.

(** A complaint filed while the language model answers. *)
Lemma response_is_creation_snapshot_witness :
  complaint_of (None, Some grievance) = Some grievance /\
  fst (post_complaints ticking nth_uuid complaint_of ai_up join_strings
         (None, Some grievance) fresh)
  = Json 201 (fst (createComplaint ticking nth_uuid grievance fresh)).
Proof.
  split; [reflexivity|].
  apply (response_is_creation_snapshot ticking nth_uuid complaint_of ai_up
           join_strings fresh (None, Some grievance)).
  reflexivity.
Defined.

(** A body the schema refuses, a second Sarah, who is turned away, and
    Bob, whose phone and email are new and who is registered. *)
Lemma register_rejects_duplicates_witness :
  user_of (None, None) = None /\
  post_auth_register ticking nth_uuid user_of (None, None) fresh
  = (Message 400 "Registration failed", fresh) /\
  user_of (Some sarah_again, None) = Some sarah_again /\
  (exists u, In u (JsMap.values (users (storage fresh))) /\
             (User.phone u = InsertUser.phone sarah_again \/
              User.email u = InsertUser.email sarah_again)) /\
  status_of
    (fst (post_auth_register ticking nth_uuid user_of
            (Some sarah_again, None) fresh)) = 400 /\
  snd (post_auth_register ticking nth_uuid user_of
         (Some sarah_again, None) fresh) = fresh /\
  (forall u, In u (JsMap.values (users (storage fresh))) ->
             User.phone u <> "+15550100" /\
             User.email u <> "bob1@company.com") /\
  exists user stripped,
    fst (post_auth_register ticking nth_uuid user_of
           (Some (bob "first-pw" "bob1@company.com"), None) fresh)
    = Json 201 {| AuthReply.user := stripped;
                  AuthReply.message := "Registration successful" |} /\
    without_password stripped user /\
    User.id user = "xu" /\
    User.username user = "bob" /\
    User.role user = "employee".
Proof.
  assert (Hdup : exists u, In u (JsMap.values (users (storage fresh))) /\
                           (User.phone u = InsertUser.phone sarah_again \/
                            User.email u = InsertUser.email sarah_again)).
  { exists (hrManager ticking nth_uuid). split; [now left | now left]. }
  assert (Hnew : forall u, In u (JsMap.values (users (storage fresh))) ->
                           User.phone u <> "+15550100" /\
                           User.email u <> "bob1@company.com").
  { intros u [<-|[]]. split; discriminate. }
  split; [reflexivity|].
  split.
  { apply (proj1 (register_rejects_duplicates ticking nth_uuid user_of fresh
                    (None, None))). reflexivity. }
  split; [reflexivity|]. split; [exact Hdup|].
  destruct (proj1 (proj2 (register_rejects_duplicates ticking nth_uuid user_of
                            fresh (Some sarah_again, None))
                     sarah_again eq_refl) Hdup) as [H400 Hsame].
  split; [exact H400|]. split; [exact Hsame|]. split; [exact Hnew|].
  destruct (proj2 (proj2 (register_rejects_duplicates ticking nth_uuid user_of
                            fresh
                            (Some (bob "first-pw" "bob1@company.com"), None))
                     (bob "first-pw" "bob1@company.com") eq_refl) Hnew)
    as (user & stripped & Hreply & Hstripped & _ & _ & _ & Hid & Hun & _ & _
        & _ & _ & Hrole & _).
  exists user, stripped.
  split; [exact Hreply|]. split; [exact Hstripped|].
  split; [exact Hid|]. split; [exact Hun | exact Hrole].
Defined.




(** The default user logs in, then mistypes the password; Carol, who is
    inactive, is turned away. *)
Lemma login_outcomes_witness :
  "+1234567890" <> "" /\ "password123" <> "" /\
  User.isActive (hrManager ticking nth_uuid) = true /\
  JsMap.get "u" (users (storage fresh)) = Some (hrManager ticking nth_uuid) /\
  (exists stripped,
      fst (post_auth_login ticking sarah_credentials fresh)
      = Json 200 {| AuthReply.user := stripped;
                    AuthReply.message := "Login successful" |} /\
      without_password stripped (hrManager ticking nth_uuid)) /\
  fst (getUser "u" (snd (post_auth_login ticking sarah_credentials fresh)))
  = Some (User.assign (User.F_lastLogin (Some (date 1700000000001)))
            (hrManager ticking nth_uuid)) /\
  post_auth_login ticking
    {| LoginBody.phone := Some "+1234567890";
       LoginBody.password := Some "letmein" |} fresh
  = (Message 401 "Invalid phone number or password", fresh) /\
  post_auth_login ticking
    {| LoginBody.phone := Some "+15550199";
       LoginBody.password := Some "letmein" |} fresh
  = (Message 401 "Invalid phone number or password", fresh) /\
  post_auth_login ticking
    {| LoginBody.phone := Some "+15550111";
       LoginBody.password := Some "carol-pw" |} with_carol
  = (Message 401 "Invalid phone number or password", with_carol).
Proof.
  split; [discriminate|]. split; [discriminate|].
  split; [reflexivity|]. split; [reflexivity|].
  pose proof (proj2 (login_outcomes ticking fresh) "+1234567890" "password123")
    as Hsarah.
  destruct Hsarah as (_ & _ & Hfound); [discriminate | discriminate |].
  destruct (Hfound (hrManager ticking nth_uuid) eq_refl)
    as (_ & Hreply & Hwrite).
  split; [exact (Hreply eq_refl)|].
  split; [exact (f_equal fst (Hwrite eq_refl eq_refl))|].
  split.
  { apply (proj2 (login_outcomes ticking fresh) "+1234567890" "letmein");
      try discriminate.
    intros u [<-|[]] _. discriminate. }
  split.
  { apply (proj2 (login_outcomes ticking fresh) "+15550199" "letmein");
      try discriminate.
    intros u [<-|[]]. discriminate. }
  pose proof (proj2 (login_outcomes ticking with_carol) "+15550111" "carol-pw")
    as Hcarol.
  destruct Hcarol as (_ & _ & Hfound'); [discriminate | discriminate |].
  destruct (Hfound' (fst (createUser ticking nth_uuid carol fresh)) eq_refl)
    as (Hinactive & _).
  exact (Hinactive eq_refl).
Defined.


(** ** Where the code departs from a claim as written *)




(** C7 as written fails: a stored user has the phone of the request and
    another password, and the login succeeds all the same, because a
    second user has that phone and the password of the request. *)
Lemma login_with_shared_phone :
  (exists u, In u (JsMap.values (users (storage two_bobs))) /\
             User.phone u = "+15550100" /\ User.password u <> "second-pw") /\
  status_of
    (fst (post_auth_login ticking
            {| LoginBody.phone := Some "+15550100";
               LoginBody.password := Some "second-pw" |} two_bobs)) = 200.
Proof.
  split.
  - eexists. split; [right; left; reflexivity|]. split; [reflexivity|].
    discriminate.
  - reflexivity.
Qed.


(** ** The further properties at concrete inputs *)

Local Abbreviation bob_body :=
  ((Some (bob "first-pw" "bob1@company.com"), None) : RawBody).

Local Abbreviation notified :=
  (snd (createNotification ticking nth_uuid reminder fresh)).

Local Abbreviation drilled :=
  (run ticking nth_uuid
     [CreateScenario drill; CreateScenario drill;
      CreateNotification reminder; CreateNotification reminder] fresh).

Local Abbreviation standing_store :=
  (run standing nth_uuid
     [CreateComplaint grievance; CreateComplaint grievance;
      CreateMeeting retro; CreateMeeting kickoff]
     (new_MemStorage standing nth_uuid)).


(** An empty update of the default user. *)
Lemma empty_update_witness :
  JsMap.get "u" (users (storage fresh)) = Some (hrManager ticking nth_uuid) /\
  updateUser "u" [] fresh = (Some (hrManager ticking nth_uuid), fresh).
Proof.
  split; [reflexivity|].
  apply (proj1 (empty_update ticking fresh "u")). reflexivity.
Defined.

(** The complaint filed is assigned, then resolved. *)
Lemma updates_compose_witness :
  JsMap.get "xu" (complaints (storage filed))
  = Some (fst (createComplaint ticking nth_uuid grievance fresh)) /\
  exists twice once,
    fst (updateComplaint ticking "xu" [Complaint.F_status "resolved"]
           (snd (updateComplaint ticking "xu"
                   [Complaint.F_assignedTo (Some "u")] filed)))
    = Some twice /\
    fst (updateComplaint ticking "xu"
           ([Complaint.F_assignedTo (Some "u")]
            ++ [Complaint.F_status "resolved"])%list filed)
    = Some once /\
    same_but_updatedAt twice once /\
    Complaint.updatedAt twice = Some (date (ticking (S (ticks filed)))) /\
    Complaint.updatedAt once = Some (date (ticking (ticks filed))).
Proof.
  split; [reflexivity|].
  exact (proj2 (proj2 (proj2 (updates_compose ticking filed "xu")))
           [Complaint.F_assignedTo (Some "u")] [Complaint.F_status "resolved"]
           _ eq_refl).
Defined.

(** The default user is found by its phone. *)
Lemma lookup_by_phone_and_username_witness :
  fst (getUserByPhone "+1234567890" fresh) = Some (hrManager ticking nth_uuid) /\
  In (hrManager ticking nth_uuid) (JsMap.values (users (storage fresh))) /\
  User.phone (hrManager ticking nth_uuid) = "+1234567890".
Proof.
  split; [reflexivity|].
  apply (proj1 (proj2 (proj1 (lookup_by_phone_and_username fresh)
                         "+1234567890"))).
  reflexivity.
Defined.

(** Bob registers with a fresh store. *)
Lemma register_then_lookup_witness :
  user_of bob_body = Some (bob "first-pw" "bob1@company.com") /\
  status_of (fst (post_auth_register ticking nth_uuid user_of bob_body fresh))
  = 201 /\
  fst (getUserByPhone "+15550100"
         (snd (post_auth_register ticking nth_uuid user_of bob_body fresh)))
  = Some (fst (createUser ticking nth_uuid
                 (bob "first-pw" "bob1@company.com") fresh)).
Proof.
  split; [reflexivity|]. split; [reflexivity|].
  exact (register_then_lookup ticking nth_uuid user_of fresh bob_body
           eq_refl eq_refl).
Defined.

(** Bob registers twice. *)
Lemma register_twice_witness :
  user_of bob_body = Some (bob "first-pw" "bob1@company.com") /\
  status_of (fst (post_auth_register ticking nth_uuid user_of bob_body fresh))
  = 201 /\
  fst (post_auth_register ticking nth_uuid user_of bob_body
         (snd (post_auth_register ticking nth_uuid user_of bob_body fresh)))
  = Message 400 "Phone number already registered".
Proof.
  split; [reflexivity|]. split; [reflexivity|].
  exact (f_equal fst
           (register_twice ticking nth_uuid user_of fresh bob_body
              eq_refl eq_refl)).
Defined.

(** Bob registers, then logs in. *)
Lemma register_then_login_witness :
  user_of bob_body = Some (bob "first-pw" "bob1@company.com") /\
  status_of (fst (post_auth_register ticking nth_uuid user_of bob_body fresh))
  = 201 /\
  "+15550100" <> "" /\ "first-pw" <> "" /\
  exists user,
    made_from user (bob "first-pw" "bob1@company.com") "xu"
      (date 1700000000001) /\
    exists stripped,
      fst (post_auth_login ticking
             {| LoginBody.phone := Some "+15550100";
                LoginBody.password := Some "first-pw" |}
             (snd (post_auth_register ticking nth_uuid user_of bob_body fresh)))
      = Json 200 {| AuthReply.user := stripped;
                    AuthReply.message := "Login successful" |} /\
      without_password stripped user.
Proof.
  assert (Hphone : "+15550100" <> "") by discriminate.
  assert (Hpassword : "first-pw" <> "") by discriminate.
  split; [reflexivity|]. split; [reflexivity|].
  split; [exact Hphone|]. split; [exact Hpassword|].
  exact (register_then_login ticking nth_uuid user_of fresh bob_body
           eq_refl eq_refl Hphone Hpassword).
Defined.

(** The default user logs in twice with a fresh store. *)
Lemma login_twice_witness :
  forallb (fun c => negb (call_sets_id c)) [] = true /\
  status_of (fst (post_auth_login ticking sarah_credentials fresh)) = 200 /\
  exists user first second,
    JsMap.get (User.id user) (users (storage fresh)) = Some user /\
    LoginBody.phone sarah_credentials = Some (User.phone user) /\
    LoginBody.password sarah_credentials = Some (User.password user) /\
    fst (post_auth_login ticking sarah_credentials fresh)
    = Json 200 {| AuthReply.user := first;
                  AuthReply.message := "Login successful" |} /\
    without_password first user /\
    fst (post_auth_login ticking sarah_credentials
           (snd (post_auth_login ticking sarah_credentials fresh)))
    = Json 200 {| AuthReply.user := second;
                  AuthReply.message := "Login successful" |} /\
    same_but_lastLogin first second /\
    UserWithoutPassword.lastLogin second = Some (date 1700000000001).
Proof.
  split; [reflexivity|]. split; [reflexivity|].
  exact (login_twice ticking nth_uuid [] sarah_credentials eq_refl eq_refl).
Defined.

(** A complaint is filed with a fresh store. *)
Lemma complaints_by_user_witness :
  JsMap.get (nth_uuid (draws fresh)) (complaints (storage fresh)) = None /\
  fst (getComplaintsByUser "u1"
         (snd (createComplaint ticking nth_uuid grievance fresh)))
  = (fst (getComplaintsByUser "u1" fresh)
     ++ [fst (createComplaint ticking nth_uuid grievance fresh)])%list.
Proof.
  split; [reflexivity|].
  exact (proj2 (proj2 (complaints_by_user ticking nth_uuid fresh "u1"))
           grievance eq_refl).
Defined.

(** The kickoff is in the list of its second attendee. *)
Lemma meetings_by_user_witness :
  (InsertMeeting.organizerId kickoff = "u2" \/
   exists ids, InsertMeeting.attendeeIds kickoff = Some ids /\ In "u2" ids) /\
  In (fst (createMeeting ticking nth_uuid kickoff fresh))
    (fst (getMeetingsByUser "u2"
            (snd (createMeeting ticking nth_uuid kickoff fresh)))).
Proof.
  assert (Hmine : InsertMeeting.organizerId kickoff = "u2" \/
                  exists ids, InsertMeeting.attendeeIds kickoff = Some ids /\
                              In "u2" ids).
  { right. exists ["u1"; "u2"]. split; [reflexivity|]. right. now left. }
  split; [exact Hmine|].
  exact (proj2 (meetings_by_user ticking nth_uuid fresh "u2") kickoff Hmine).
Defined.

(** Two scenarios are posted and two reminders sent, one after the
    other. *)
Lemma scenarios_and_notifications_ordered_witness :
  (forall s, In s (JsMap.values (scenarios (storage drilled))) ->
             Scenario.createdAt s <> Some Invalid_Date) /\
  (forall n, In n (JsMap.values (notifications (storage drilled))) ->
             Notification.userId n = "u1" ->
             Notification.createdAt n <> Some Invalid_Date) /\
  StronglySorted
    (fun a b => not_before (Date_of (Scenario.createdAt a))
                  (Date_of (Scenario.createdAt b)))
    (fst (getScenarios drilled)) /\
  StronglySorted
    (fun a b => not_before (Date_of (Notification.createdAt a))
                  (Date_of (Notification.createdAt b)))
    (fst (getNotifications "u1" drilled)) /\
  map Scenario.id (fst (getScenarios drilled)) = ["xxu"; "xu"] /\
  map Notification.id (fst (getNotifications "u1" drilled)) = ["xxxxu"; "xxxu"] /\
  forall n, In n (fst (getNotifications "u1" drilled)) ->
            Notification.userId n = "u1".
Proof.
  assert (Hs : forall s, In s (JsMap.values (scenarios (storage drilled))) ->
                         Scenario.createdAt s <> Some Invalid_Date).
  { intros s [<-|[<-|[]]]; discriminate. }
  assert (Hn : forall n, In n (JsMap.values (notifications (storage drilled))) ->
                         Notification.userId n = "u1" ->
                         Notification.createdAt n <> Some Invalid_Date).
  { intros n [<-|[<-|[]]] _; discriminate. }
  split; [exact Hs|]. split; [exact Hn|].
  pose proof (scenarios_and_notifications_ordered drilled "u1")
    as (_ & Hss & _ & Hns & Hall & _).
  split; [exact (Hss Hs)|]. split; [exact (Hns Hn)|].
  split; [reflexivity|]. split; [reflexivity | exact Hall].
Defined.



(** A scenario is posted while the language model answers. *)
Lemma scenario_response_is_creation_snapshot_witness :
  SampleBody.scenario sample_body = Some drill /\
  fst (post_scenarios ticking nth_uuid join_strings SampleBody.scenario
         scenario_ai_up sample_body fresh)
  = Json 201 (fst (createScenario ticking nth_uuid drill fresh)).
Proof.
  split; [reflexivity|].
  exact (proj1 (scenario_response_is_creation_snapshot ticking nth_uuid
                  join_strings SampleBody.scenario scenario_ai_up fresh
                  sample_body eq_refl)).
Defined.

(** A question is asked while the language model is down. *)
Lemma chat_outcomes_witness :
  (exists question,
      SampleBody.question sample_body = Some question /\
      hr_ai_down question = None) /\
  fst (post_ai_chat SampleBody.question hr_ai_down sample_body fresh)
  = Message 400 "Invalid request".
Proof.
  assert (Hdown : exists question,
             SampleBody.question sample_body = Some question /\
             hr_ai_down question = None)
    by (eexists; split; reflexivity).
  split; [exact Hdown|].
  exact (proj1 (proj2 (proj2 (chat_outcomes SampleBody.question hr_ai_down
                                fresh sample_body)))
           (or_intror Hdown)).
Defined.

(** The kickoff, asked for with duration 0, lasts 30 minutes. *)
Lemma meeting_creation_witness :
  SampleBody.meeting (unconverted sample_body) = inl kickoff /\
  (InsertMeeting.duration kickoff = None \/
   InsertMeeting.duration kickoff = Some 0) /\
  Meeting.duration (fst (createMeeting ticking nth_uuid kickoff fresh)) = 30.
Proof.
  assert (Hzero : InsertMeeting.duration kickoff = None \/
                  InsertMeeting.duration kickoff = Some 0) by now right.
  split; [reflexivity|]. split; [exact Hzero|].
  destruct (proj2 (meeting_creation ticking nth_uuid SampleBody.meeting
                     unconverted fresh sample_body) kickoff eq_refl)
    as (_ & _ & _ & _ & Hdefault).
  exact (Hdefault Hzero).
Defined.

(** Bob is created through [POST /api/users]. *)
Lemma user_creation_round_trip_witness :
  user_of bob_body = Some (bob "first-pw" "bob1@company.com") /\
  JsMap.get "xu" (users (storage fresh)) = None /\
  get_user "xu" fresh = (Message 404 "User not found", fresh) /\
  status_of
    (fst (get_user "xu" (snd (post_users ticking nth_uuid user_of bob_body fresh))))
  = 200.
Proof.
  destruct (proj2 (user_creation_round_trip ticking nth_uuid user_of fresh
                     bob_body) _ eq_refl)
    as (_ & _ & Hbefore & Hafter & _).
  split; [reflexivity|]. split; [reflexivity|].
  split; [exact (Hbefore eq_refl)|].
  exact (f_equal (fun r => status_of (fst r)) Hafter).
Defined.

(** Bob is created, a complaint is filed and patched, and Sarah logs in. *)
Lemma default_user_can_always_log_in_witness :
  (forall i j, nth_uuid i = nth_uuid j -> i = j) /\
  exists stripped user,
    fst (post_auth_login ticking sarah_credentials
           (serve_all ticking nth_uuid SampleBody.user SampleBody.complaint
              ai_up join_strings SampleBody.meeting SampleBody.scenario
              SampleBody.question unconverted scenario_ai_up hr_ai_up
              sample_month sample_year
              [PostUsers sample_body; PostComplaints sample_body;
               PatchComplaint _ "xxu" [Complaint.F_status "resolved"];
               PostAuthLogin _ sarah_credentials; GetAnalyticsStats _]
              fresh))
    = Json 200 {| AuthReply.user := stripped;
                  AuthReply.message := "Login successful" |} /\
    UserWithoutPassword.id stripped = "u" /\
    UserWithoutPassword.username stripped = "sarah.johnson" /\
    UserWithoutPassword.email stripped = "sarah.johnson@company.com" /\
    UserWithoutPassword.phone stripped = "+1234567890" /\
    UserWithoutPassword.name stripped = "Sarah Johnson" /\
    UserWithoutPassword.role stripped = "hr_manager" /\
    UserWithoutPassword.department stripped = Some "Human Resources" /\
    UserWithoutPassword.isActive stripped = true /\
    UserWithoutPassword.createdAt stripped = Some (date 1700000000000) /\
    JsMap.get "u"
      (users
         (storage
            (serve_all ticking nth_uuid SampleBody.user SampleBody.complaint
               ai_up join_strings SampleBody.meeting SampleBody.scenario
               SampleBody.question unconverted scenario_ai_up hr_ai_up
               sample_month sample_year
               [PostUsers sample_body; PostComplaints sample_body;
                PatchComplaint _ "xxu" [Complaint.F_status "resolved"];
                PostAuthLogin _ sarah_credentials; GetAnalyticsStats _]
               fresh)))
    = Some user /\
    UserWithoutPassword.lastLogin stripped = User.lastLogin user.
Proof.
  split; [exact nth_uuid_inj|].
  exact (default_user_can_always_log_in ticking nth_uuid SampleBody.user
           SampleBody.complaint ai_up join_strings SampleBody.meeting
           SampleBody.scenario SampleBody.question unconverted scenario_ai_up
           hr_ai_up sample_month sample_year
           [PostUsers sample_body; PostComplaints sample_body;
            PatchComplaint _ "xxu" [Complaint.F_status "resolved"];
            PostAuthLogin _ sarah_credentials; GetAnalyticsStats _]
           nth_uuid_inj).
Defined.

